(** * soroban-docs: the sidebar configuration and the reader-feedback widget

    A shallow embedding of the two JavaScript sources of the documentation
    site:

    - the sidebar configuration module (its exported [apiSidebar]
      navigation tree), in module [Sidebar];
    - [src/components/ReaderFeedback/index.js] (the React component
      [ReaderFeedback] and its click handler [giveFeedback]), in module
      [Feedback].

    JavaScript values, the global object [window], exceptions and the single
    React state cell of the component are modelled explicitly; the component
    body is a computation in a state-and-exception monad.

    The Smart Contracts page stored with the component prints four functions
    of the example crowdfund contract; they are embedded in module
    [Crowdfund] over an interface for what the page does not print. *)

From Stdlib Require Import ZArith.
From stdpp Require Import base strings list gmap.

Local Open Scope string_scope.
Set Warnings "-register-all".

(* ===================================================================== *)
(** * The sidebar navigation tree                                         *)
(* ===================================================================== *)

Module Sidebar.

(** [link: { type: 'generated-index', title, slug }] *)
Record link := Link {
  link_type  : string;
  link_title : string;
  link_slug  : string;
}.

(** A sidebar entry is either the string shorthand for a content page
    (its identifier) or an object tagged [type: 'category']. *)
Inductive item :=
| Doc (id : string)
| Category (label : string) (collapsible collapsed : bool)
           (lnk : link) (items : list item).

(** The value of [module.exports.apiSidebar], field by field. *)
Definition apiSidebar : list item :=
  [ Category "Introduction" true false
      (Link "generated-index" "Introduction" "/")
      [ Doc "goals";
        Doc "anti-goals";
        Doc "json-rpc";
        Doc "pagination";
        Doc "outstanding-questions" ];
    Category "Request/Response Methods" true false
      (Link "generated-index" "Request/Response Methods" "methods")
      [ Doc "methods/getAccount";
        Doc "methods/getHealth";
        Doc "methods/getLatestLedger";
        Doc "methods/getLedgerEntry";
        Doc "methods/getContractData";
        Doc "methods/getEvents";
        Doc "methods/getNetwork";
        Doc "methods/getTransactionStatus";
        Doc "methods/requestAirdrop";
        Doc "methods/sendTransaction";
        Doc "methods/simulateTransaction" ] ].

(** Every page identifier below an entry, in document order. *)
Fixpoint doc_ids (i : item) : list string :=
  match i with
  | Doc id => [id]
  | Category _ _ _ _ its => flat_map doc_ids its
  end.

(** The page identifiers of the whole tree. *)
Definition page_ids (tree : list item) : list string :=
  flat_map doc_ids tree.

(** The tree read as the spec describes it: each top-level category with
    the identifiers listed directly under it ([None] for an entry of
    another shape). *)
Definition direct_id (i : item) : option string :=
  match i with Doc id => Some id | Category _ _ _ _ _ => None end.

Definition category_view (i : item) : option (string * list (option string)) :=
  match i with
  | Doc _ => None
  | Category l _ _ _ its => Some (l, map direct_id its)
  end.

Definition categories (tree : list item) : list (option (string * list (option string))) :=
  map category_view tree.

(** The slugs of the generated index pages, in document order. *)
Fixpoint slugs (i : item) : list string :=
  match i with
  | Doc _ => []
  | Category _ _ _ lnk its => link_slug lnk :: flat_map slugs its
  end.

Definition category_slugs (tree : list item) : list string :=
  flat_map slugs tree.

End Sidebar.

(* ===================================================================== *)
(** * JavaScript values and the global object                             *)
(* ===================================================================== *)

Module JS.

(** The values the component handles.  Numbers are the small integers the
    source writes ([0] and [1]); a function value is foreign code, known by
    a name. *)
Inductive value :=
| VUndefined
| VNull
| VBool (b : bool)
| VNum (n : Z)
| VStr (s : string)
| VObj (props : list (string * value))
| VFun (name : string).

Inductive exn :=
| ReferenceError (ident : string)      (* [ident is not defined] *)
| TypeError (msg : string)             (* [... is not a function] *)
| Thrown (v : value).                  (* thrown by foreign code *)

(** ToBoolean *)
Definition truthy (v : value) : bool :=
  match v with
  | VUndefined | VNull => false
  | VBool b => b
  | VNum n => negb (n =? 0)%Z
  | VStr s => negb (String.eqb s "")
  | VObj _ | VFun _ => true
  end.

(** [o.k] on an object literal: the first property of that name, else
    [undefined]. *)
Fixpoint assoc (k : string) (props : list (string * value)) : value :=
  match props with
  | [] => VUndefined
  | (k', v) :: rest => if String.eqb k k' then v else assoc k rest
  end.

Definition get_prop (k : string) (v : value) : value :=
  match v with
  | VObj props => assoc k props
  | _ => VUndefined
  end.

(** One call into foreign code: the callee and its arguments. *)
Definition call_record : Type := string * list value.

(** What a foreign function does when called: it sees its arguments and the
    global object, may change the global object, and returns or throws. *)
Definition host_behaviour : Type :=
  string -> list value -> gmap string value -> option exn * gmap string value.

(** The part of the page the component can observe or change. *)
Record state := State {
  browser       : bool;               (* what [useIsBrowser()] returns *)
  window        : gmap string value;  (* properties of the global object *)
  memoizedState : option value;       (* the component's [useState] cell *)
  sent          : list call_record;   (* calls into foreign code, oldest first *)
}.

Definition set_window (g : gmap string value) (s : state) : state :=
  State (browser s) g (memoizedState s) (sent s).
Definition set_memoizedState (m : option value) (s : state) : state :=
  State (browser s) (window s) m (sent s).
Definition set_browser (b : bool) (s : state) : state :=
  State b (window s) (memoizedState s) (sent s).
Definition log_call (c : call_record) (s : state) : state :=
  State (browser s) (window s) (memoizedState s) (sent s ++ [c]).

(** ** Computations: state passing with exceptions *)

Inductive result (A : Type) :=
| Ok (a : A)
| Throw (e : exn).
Arguments Ok {A} a.
Arguments Throw {A} e.

Definition M (A : Type) : Type := state -> result A * state.

Definition ret {A} (a : A) : M A := fun s => (Ok a, s).

Definition bind {A B} (c : M A) (k : A -> M B) : M B :=
  fun s =>
    match c s with
    | (Ok a, s') => k a s'
    | (Throw e, s') => (Throw e, s')
    end.

Definition throw {A} (e : exn) : M A := fun s => (Throw e, s).

Notation "'let!' x ':=' c 'in' k" := (bind c (fun x => k))
  (at level 10, x name, c at level 100, k at level 200).
Notation "'let!' ' p ':=' c 'in' k" := (bind c (fun x => match x with p => k end))
  (at level 10, p pattern, c at level 100, k at level 200).
Notation "'do!' c 'in' k" := (bind c (fun _ => k))
  (at level 10, c at level 100, k at level 200).

(** [window.k]: a property read; a missing property reads as [undefined]. *)
Definition get_window (k : string) : M value :=
  fun s => (Ok (default VUndefined (window s !! k)), s).

(** A free identifier [x] (bound in no enclosing function or module scope)
    is resolved on the global object; an unresolvable reference throws. *)
Definition get_global (x : string) : M value :=
  fun s =>
    match window s !! x with
    | Some v => (Ok v, s)
    | None => (Throw (ReferenceError x), s)
    end.

Section Host.

Variable host : host_behaviour.

(** [f(args)], the arguments already evaluated. *)
Definition call (f : value) (args : list value) : M value :=
  match f with
  | VFun name =>
      fun s =>
        let '(r, g) := host name args (window s) in
        (match r with None => Ok VUndefined | Some e => Throw e end,
         set_window g (log_call (name, args) s))
  | _ => throw (TypeError "not a function")
  end.

End Host.

End JS.

(* ===================================================================== *)
(** * The reader-feedback widget                                          *)
(* ===================================================================== *)

Module Feedback.
Import JS.

(** ** What a render returns *)

Inductive icon := IconThumbsUp | IconThumbsDown.

Inductive node :=
| Text (s : string)
| Icon (i : icon) (className : string) (onClick : M unit).

(** [null], or the [<div className=...>] with its children in order. *)
Inductive element :=
| Null
| Div (className : string) (children : list node).

(** ** The hooks the component calls *)

(** [useIsBrowser()] reads the flag the site generator provides. *)
Definition useIsBrowser : M bool := fun s => (Ok (browser s), s).

(** The setter [useState] hands out: it stores the next value of the cell. *)
Definition setState (v : value) : M unit :=
  fun s => (Ok tt, set_memoizedState (Some v) s).

(** [useState(init)]: the first call of a mounted component fills the cell
    with [init]; later renders read the cell. *)
Definition useState (init : value) : M (value * (value -> M unit)) :=
  fun s =>
    match memoizedState s with
    | Some v => (Ok (v, setState), s)
    | None => (Ok (init, setState), set_memoizedState (Some init) s)
    end.

Section Component.

Variable host : host_behaviour.

(** [const giveFeedback = (value) => { ... }], closed over the setter.
    The callee [window.ga] is read first, then the arguments are evaluated,
    then the call is made.  [label] is bound neither in the handler, nor in
    the component (whose only prop is [pageId]), nor at module level, so it
    is a reference to a global. *)
Definition giveFeedback (setFeedbackGiven : value -> M unit) (value : value) : M unit :=
  let! ga := get_window "ga" in
  do! (if truthy ga then
         let! callee := get_window "ga" in
         let! label := get_global "label" in
         do! call host callee
               [ VStr "send";
                 VObj [ ("hitType", VStr "event");
                        ("eventCategory", VStr "button");
                        ("eventAction", VStr "feedback");
                        ("eventLabel", label);
                        ("eventValue", value) ] ] in
         ret tt
       else ret tt) in
  setFeedbackGiven (VBool true).

(** [const ReaderFeedback = ({ pageId }) => { ... }] *)
Definition ReaderFeedback (pageId : value) : M element :=
  let! isBrowser := useIsBrowser in
  if negb isBrowser then ret Null
  else
    let! '(feedbackGiven, setFeedbackGiven) := useState (VBool false) in
    ret (Div "readerFeedback"
           (if truthy feedbackGiven then
              [ Text "Thanks for your feedback!" ]
            else
              [ Text "Did you find this page helpful?";
                Icon IconThumbsUp "feedback_thumbsup"
                     (giveFeedback setFeedbackGiven (VNum 1));
                Icon IconThumbsDown "feedback_thumbsdown"
                     (giveFeedback setFeedbackGiven (VNum 0)) ])).

(** ** The mounted widget and what can happen to it *)

(** What is on the page, the state behind it, and the exceptions that
    escaped an event handler or a render (oldest first). *)
Record widget := Widget {
  tree     : element;
  st       : state;
  uncaught : list exn;
}.

Definition icon_eqb (a b : icon) : bool :=
  match a, b with
  | IconThumbsUp, IconThumbsUp | IconThumbsDown, IconThumbsDown => true
  | _, _ => false
  end.

Fixpoint find_onClick (i : icon) (ns : list node) : option (M unit) :=
  match ns with
  | [] => None
  | Text _ :: rest => find_onClick i rest
  | Icon j _ h :: rest => if icon_eqb i j then Some h else find_onClick i rest
  end.

(** The click handler attached to control [i], if the control is shown. *)
Definition onClick_of (i : icon) (e : element) : option (M unit) :=
  match e with
  | Null => None
  | Div _ ns => find_onClick i ns
  end.

(** A render of the component with prop [pageId] over the current state. *)
Definition render (pageId : value) (w : widget) : widget :=
  match ReaderFeedback pageId (st w) with
  | (Ok e, s') => Widget e s' (uncaught w)
  | (Throw x, s') => Widget Null s' (uncaught w ++ [x])
  end.

(** Mounting starts from an empty state cell. *)
Definition mount (pageId : value) (s : state) : widget :=
  render pageId (Widget Null (set_memoizedState None s) []).

(** A click on control [i] whose state update is rendered before anything
    else happens: nothing when the control is not shown; otherwise its
    handler runs, an exception it throws is reported, and the component
    renders again.  ([press] below is the click alone, without the render.) *)
Definition click (pageId : value) (i : icon) (w : widget) : widget :=
  match onClick_of i (tree w) with
  | None => w
  | Some handler =>
      match handler (st w) with
      | (Ok _, s') => render pageId (Widget (tree w) s' (uncaught w))
      | (Throw x, s') => render pageId (Widget (tree w) s' (uncaught w ++ [x]))
      end
  end.

Inductive event :=
| Click (i : icon)     (* the reader clicks a control *)
| Rerender             (* a parent renders again *)
| Hydrate.             (* the site generator switches [useIsBrowser] on *)

Definition step (pageId : value) (w : widget) (ev : event) : widget :=
  match ev with
  | Click i => click pageId i w
  | Rerender => render pageId w
  | Hydrate => render pageId (Widget (tree w) (set_browser true (st w)) (uncaught w))
  end.

Definition run (pageId : value) (evs : list event) (w : widget) : widget :=
  fold_left (step pageId) evs w.

(** ** Clicks and renders delivered separately *)

(** The handler only calls the setter; it never reads the flag.  The
    controls leave the page with the next render, so a click delivered
    before that render still reaches its control. *)
Inductive delivery :=
| Press (i : icon)     (* a click; no render yet *)
| Commit               (* the component renders *)
| Hydrated.            (* [useIsBrowser] switches on and the component renders *)

(** The handler of control [i] on the page as last rendered runs; the page
    stays as it is. *)
Definition press (i : icon) (w : widget) : widget :=
  match onClick_of i (tree w) with
  | None => w
  | Some handler =>
      match handler (st w) with
      | (Ok _, s') => Widget (tree w) s' (uncaught w)
      | (Throw x, s') => Widget (tree w) s' (uncaught w ++ [x])
      end
  end.

Definition deliver (pageId : value) (w : widget) (d : delivery) : widget :=
  match d with
  | Press i => press i w
  | Commit => render pageId w
  | Hydrated => render pageId (Widget (tree w) (set_browser true (st w)) (uncaught w))
  end.

Definition deliveries (pageId : value) (ds : list delivery) (w : widget) : widget :=
  fold_left (deliver pageId) ds w.

(** ** Vocabulary for the statements below *)

(** The two outputs of a browser render, by the flag it read. *)
Definition view (given : bool) : element :=
  Div "readerFeedback"
    (if given then
       [ Text "Thanks for your feedback!" ]
     else
       [ Text "Did you find this page helpful?";
         Icon IconThumbsUp "feedback_thumbsup" (giveFeedback setState (VNum 1));
         Icon IconThumbsDown "feedback_thumbsdown" (giveFeedback setState (VNum 0)) ]).

(** The number literal written in the [onClick] of each control. *)
Definition value_of (i : icon) : value :=
  match i with
  | IconThumbsUp => VNum 1
  | IconThumbsDown => VNum 0
  end.

(** Every handler on the page is [giveFeedback] applied to the value of
    its control. *)
Definition handlers_ok (w : widget) : Prop :=
  ∀ i h, onClick_of i (tree w) = Some h ->
         h = giveFeedback setState (value_of i).

End Component.

(** ** Reading rendered output and telemetry *)

(** The state a browser render leaves: the cell is filled on first use. *)
Definition rendered (s : state) : state :=
  match memoizedState s with
  | Some _ => s
  | None => set_memoizedState (Some (VBool false)) s
  end.


Definition thanks : element :=
  Div "readerFeedback" [ Text "Thanks for your feedback!" ].

Definition shows_controls (e : element) : bool :=
  match onClick_of IconThumbsUp e, onClick_of IconThumbsDown e with
  | None, None => false
  | _, _ => true
  end.

(** The flag [feedbackGiven] as the next render will read it. *)
Definition feedbackGiven (s : state) : bool :=
  match memoizedState s with
  | Some v => truthy v
  | None => false
  end.

(** The payload of a [ga('send', payload)] call. *)
Definition payload (c : call_record) : value := nth 1 (snd c) VUndefined.

(** The telemetry value of a call is one of the two the controls pass. *)
Definition binary (c : call_record) : Prop :=
  get_prop "eventValue" (payload c) = VNum 1
  ∨ get_prop "eventValue" (payload c) = VNum 0.

(** A foreign function that returns normally and changes nothing. *)
Definition quiet : host_behaviour := fun _ _ g => (None, g).

(** ** Concrete pages, used to run the model *)

(** A browser page whose only global of interest is the analytics hook. *)
Definition page_with_ga : state :=
  State true {[ "ga" := VFun "ga" ]} None [].

(** A browser page without the analytics hook. *)
Definition page_without_ga : state :=
  State true ∅ None [].

(** A browser page that also happens to define a global [label]. *)
Definition page_with_ga_and_label : state :=
  State true {[ "ga" := VFun "ga"; "label" := VStr "intro" ]} None [].

(** A server-side render. *)
Definition server_page : state :=
  State false ∅ None [].

(** ** Further vocabulary *)

(** The argument list of the call in [giveFeedback], for the value [label]
    resolved to and the handler's argument. *)
Definition ga_args (label v : value) : list value :=
  [ VStr "send";
    VObj [ ("hitType", VStr "event");
           ("eventCategory", VStr "button");
           ("eventAction", VStr "feedback");
           ("eventLabel", label);
           ("eventValue", v) ] ].

(** A recorded call has the arguments the handler builds for one of the
    two controls. *)
Definition event_shape (c : call_record) : Prop :=
  ∃ l i, snd c = ga_args l (value_of i).

(** The widget shows what a render of its current state returns. *)
Definition in_sync (host : host_behaviour) (w : widget) : Prop :=
  tree w = if browser (st w) then view host (feedbackGiven (st w)) else Null.

(** Every click is followed by a render before the next delivery. *)
Fixpoint paced (ds : list delivery) : bool :=
  match ds with
  | [] => true
  | Press _ :: rest =>
      match rest with
      | Commit :: rest' => paced rest'
      | _ => false
      end
  | (Commit | Hydrated) :: rest => paced rest
  end.

(** A paced sequence as events of [step]: a click with its render is one
    [Click]. *)
Fixpoint fused (ds : list delivery) : list event :=
  match ds with
  | [] => []
  | Press i :: rest =>
      Click i :: match rest with
                 | Commit :: rest' => fused rest'
                 | _ => []
                 end
  | Commit :: rest => Rerender :: fused rest
  | Hydrated :: rest => Hydrate :: fused rest
  end.

Definition is_click (ev : event) : bool :=
  match ev with
  | Click _ => true
  | Rerender | Hydrate => false
  end.

(** A foreign function that throws whenever it is called. *)
Definition failing : host_behaviour :=
  fun _ _ g => (Some (Thrown (VStr "blocked")), g).

(** A browser page whose [window.ga] is truthy but not a function. *)
Definition page_with_broken_ga : state :=
  State true {[ "ga" := VBool true; "label" := VStr "intro" ]} None [].

End Feedback.

(* ===================================================================== *)
(** * The crowdfund contract shown on the Smart Contracts page            *)
(* ===================================================================== *)

(** The page prints four functions of the example contract ([initialize],
    [get_state], [deposit], [withdraw]) and its [State] enumeration.  They
    are embedded as printed.  The helpers they call and the SDK are not
    printed; they form the interface [Sdk], and every statement about the
    contract holds for every implementation of it. *)

Module Crowdfund.

(** [pub enum State { Running = 0, Success = 1, Expired = 2 }] *)
Inductive State := Running | Success | Expired.

Definition State_eqb (a b : State) : bool :=
  match a, b with
  | Running, Running | Success, Success | Expired, Expired => true
  | _, _ => false
  end.

(** The storage keys [initialize] writes. *)
Module DataKey.
Inductive t := Recipient | RecipientClaimed | Started | Deadline | Target | Token.

Definition eqb (a b : t) : bool :=
  match a, b with
  | Recipient, Recipient | RecipientClaimed, RecipientClaimed
  | Started, Started | Deadline, Deadline | Target, Target | Token, Token => true
  | _, _ => false
  end.
End DataKey.

(** The values [initialize] stores: an address, a [bool], a [u64], an
    [i128]. *)
Inductive stored (Address : Type) :=
| SAddress (a : Address)
| SBool (b : bool)
| SU64 (n : Z)
| SI128 (n : Z).
Arguments SAddress {Address} a.
Arguments SBool {Address} b.
Arguments SU64 {Address} n.
Arguments SI128 {Address} n.

(** How a contract call ends: it returns, leaving an environment; or it
    panics with the message of an [assert!] or [panic!]; or a call into the
    SDK fails.  A call that does not return leaves no environment: its
    changes are discarded. *)
Inductive outcome (A : Type) :=
| Returned (a : A)
| Panicked (msg : string)
| HostFailed.
Arguments Returned {A} a.
Arguments Panicked {A} msg.
Arguments HostFailed {A}.

(** What the printed functions call and the page does not print.  [env] is
    the state behind the handle [e]; reads are functions of it, writes
    return the next state, and the calls that can fail return [None]. *)
Class Sdk (Address env : Type) := {
  (* the SDK *)
  storage_has : env -> DataKey.t -> bool;
  storage_set : env -> DataKey.t -> stored Address -> env;
  require_auth : env -> Address -> option env;
  current_contract_address : env -> Address;
  (* [token::Client::new(&e, &token_id).transfer(&from, &to, &amount)] *)
  client_transfer : env -> Address -> Address -> Address -> Z -> option env;
  (* helpers of the contract *)
  get_ledger_timestamp : env -> Z;
  get_deadline : env -> Z;
  get_token : env -> Address;
  get_recipient : env -> Address;
  get_recipient_claimed : env -> bool;
  get_target_amount : env -> Z;
  get_user_deposited : env -> Address -> Z;
  get_balance : env -> Address -> Z;
  target_reached : env -> Address -> bool;
  set_user_deposited : env -> Address -> Z -> env;
  set_recipient_claimed : env -> env;
  transfer : env -> Address -> Z -> option env;
  (* [events::pledged_amount_changed], [events::target_reached] *)
  events_pledged_amount_changed : env -> Z -> env;
  events_target_reached : env -> Z -> Z -> env;
}.

(** ** [i128] addition *)

Definition i128_min : Z := - 2 ^ 127.
Definition i128_max : Z := 2 ^ 127 - 1.

Definition wrap_i128 (z : Z) : Z := (z + 2 ^ 127) mod 2 ^ 128 - 2 ^ 127.

(** [a + b] on [i128]: the sum when it fits; otherwise a panic when the
    build checks overflow, and the wrapped sum when it does not. *)
Definition i128_add (overflow_checks : bool) (a b : Z) : outcome Z :=
  if (i128_min <=? a + b)%Z && (a + b <=? i128_max)%Z then Returned (a + b)%Z
  else if overflow_checks then Panicked "attempt to add with overflow"
  else Returned (wrap_i128 (a + b)).

Section Contract.

Context {Address env : Type} `{EqDecision Address} `{Sdk Address env}.

(** The build profile: whether integer overflow panics. *)
Variable overflow_checks : bool.

(** [pub fn initialize(e, recipient, deadline, target_amount, token)] *)
Definition initialize (e : env) (recipient : Address) (deadline : Z)
    (target_amount : Z) (token : Address) : outcome env :=
  if storage_has e DataKey.Recipient then Panicked "already initialized"
  else
    let e := storage_set e DataKey.Recipient (SAddress recipient) in
    let e := storage_set e DataKey.RecipientClaimed (SBool false) in
    let e := storage_set e DataKey.Started (SU64 (get_ledger_timestamp e)) in
    let e := storage_set e DataKey.Deadline (SU64 deadline) in
    let e := storage_set e DataKey.Target (SI128 target_amount) in
    let e := storage_set e DataKey.Token (SAddress token) in
    Returned e.

(** [fn get_state(e: &Env) -> State] *)
Definition get_state (e : env) : State :=
  let deadline := get_deadline e in
  let token_id := get_token e in
  let current_timestamp := get_ledger_timestamp e in
  if (current_timestamp <? deadline)%Z then Running
  else if get_recipient_claimed e || target_reached e token_id then Success
  else Expired.

(** [pub fn deposit(e: Env, user: Address, amount: i128)] *)
Definition deposit (e : env) (user : Address) (amount : Z) : outcome env :=
  match require_auth e user with
  | None => HostFailed
  | Some e =>
      if negb (0 <? amount)%Z then Panicked "amount must be positive"
      else if negb (State_eqb (get_state e) Running) then Panicked "sale is not running"
      else
        let token_id := get_token e in
        let current_target_met := target_reached e token_id in
        let recipient := get_recipient e in
        if negb (bool_decide (user ≠ recipient)) then Panicked "recipient may not deposit"
        else
          let balance := get_user_deposited e user in
          match i128_add overflow_checks balance amount with
          | Panicked msg => Panicked msg
          | HostFailed => HostFailed
          | Returned sum =>
              let e := set_user_deposited e user sum in
              match client_transfer e token_id user (current_contract_address e) amount with
              | None => HostFailed
              | Some e =>
                  let contract_balance := get_balance e token_id in
                  let e := events_pledged_amount_changed e contract_balance in
                  if negb current_target_met && target_reached e token_id then
                    Returned (events_target_reached e contract_balance (get_target_amount e))
                  else Returned e
              end
          end
  end.

(** [pub fn withdraw(e: Env, to: Address)] *)
Definition withdraw (e : env) (to : Address) : outcome env :=
  let state := get_state e in
  let recipient := get_recipient e in
  match state with
  | Running => Panicked "sale is still running"
  | Success =>
      if negb (bool_decide (to = recipient)) then
        Panicked "sale was successful, only the recipient may withdraw"
      else if negb (negb (get_recipient_claimed e)) then
        Panicked "sale was successful, recipient has withdrawn funds already"
      else
        let token := get_token e in
        match transfer e recipient (get_balance e token) with
        | None => HostFailed
        | Some e => Returned (set_recipient_claimed e)
        end
  | Expired =>
      if negb (bool_decide (to ≠ recipient)) then
        Panicked "sale expired, the recipient may not withdraw"
      else
        let balance := get_user_deposited e to in
        let e := set_user_deposited e to 0%Z in
        match transfer e to balance with
        | None => HostFailed
        | Some e =>
            let token_id := get_token e in
            let contract_balance := get_balance e token_id in
            Returned (events_pledged_amount_changed e contract_balance)
        end
  end.

End Contract.

(** ** A reference environment *)

(** One implementation of [Sdk], used to run the printed functions: storage
    as a table of the keys, one token with a balance per address,
    authorisation as the tests' [mock_all_auths], and the events in order. *)
Module Ref.

Record ledger := Ledger {
  now        : Z;
  store      : DataKey.t -> option (stored string);
  deposits   : gmap string Z;
  balances   : gmap string Z;
  all_auths  : bool;
  events     : list (string * list Z);
}.

Definition contract_id : string := "crowdfund".

Definition has (e : ledger) (k : DataKey.t) : bool :=
  match store e k with Some _ => true | None => false end.

Definition set (e : ledger) (k : DataKey.t) (v : stored string) : ledger :=
  Ledger (now e) (fun k' => if DataKey.eqb k k' then Some v else store e k')
         (deposits e) (balances e) (all_auths e) (events e).

Definition auth (e : ledger) (who : string) : option ledger :=
  if all_auths e then Some e else None.

Definition balance (e : ledger) (who : string) : Z :=
  default 0%Z (balances e !! who).

Definition token_transfer (e : ledger) (token from to : string) (amount : Z)
  : option ledger :=
  if (0 <=? amount)%Z && (amount <=? balance e from)%Z then
    let b := <[from := (balance e from - amount)%Z]> (balances e) in
    let b := <[to := (default 0%Z (b !! to) + amount)%Z]> b in
    Some (Ledger (now e) (store e) (deposits e) b (all_auths e) (events e))
  else None.

Definition deadline_of (e : ledger) : Z :=
  match store e DataKey.Deadline with Some (SU64 d) => d | _ => 0%Z end.
Definition token_of (e : ledger) : string :=
  match store e DataKey.Token with Some (SAddress a) => a | _ => "" end.
Definition recipient_of (e : ledger) : string :=
  match store e DataKey.Recipient with Some (SAddress a) => a | _ => "" end.
Definition claimed_of (e : ledger) : bool :=
  match store e DataKey.RecipientClaimed with Some (SBool b) => b | _ => false end.
Definition target_of (e : ledger) : Z :=
  match store e DataKey.Target with Some (SI128 t) => t | _ => 0%Z end.

Definition deposited (e : ledger) (user : string) : Z :=
  default 0%Z (deposits e !! user).
Definition set_deposited (e : ledger) (user : string) (amount : Z) : ledger :=
  Ledger (now e) (store e) (<[user := amount]> (deposits e)) (balances e)
         (all_auths e) (events e).

Definition emit (e : ledger) (topic : string) (data : list Z) : ledger :=
  Ledger (now e) (store e) (deposits e) (balances e) (all_auths e)
         (events e ++ [(topic, data)]).

#[export] Instance sdk : Sdk string ledger := {|
  storage_has := has;
  storage_set := set;
  require_auth := auth;
  current_contract_address := fun _ => contract_id;
  client_transfer := token_transfer;
  get_ledger_timestamp := now;
  get_deadline := deadline_of;
  get_token := token_of;
  get_recipient := recipient_of;
  get_recipient_claimed := claimed_of;
  get_target_amount := target_of;
  get_user_deposited := deposited;
  get_balance := fun e _ => balance e contract_id;
  target_reached := fun e _ => (target_of e <=? balance e contract_id)%Z;
  set_user_deposited := set_deposited;
  set_recipient_claimed := fun e => set e DataKey.RecipientClaimed (SBool true);
  transfer := fun e to amount => token_transfer e (token_of e) contract_id to amount;
  events_pledged_amount_changed := fun e b => emit e "pledged_amount_changed" [b];
  events_target_reached := fun e b t => emit e "target_reached" [b; t];
|}.

(** [advance_ledger(&e, seconds)] of the tests. *)
Definition advance_ledger (e : ledger) (seconds : Z) : ledger :=
  Ledger (now e + seconds) (store e) (deposits e) (balances e) (all_auths e)
         (events e).

Definition mint (e : ledger) (to : string) (amount : Z) : ledger :=
  Ledger (now e) (store e) (deposits e)
         (<[to := (balance e to + amount)%Z]> (balances e)) (all_auths e) (events e).

(** What is left of a call that was expected to return. *)
Definition expect (o : outcome ledger) (otherwise : ledger) : ledger :=
  match o with Returned e => e | _ => otherwise end.

(** [Setup::new()] of the tests: deadline 10 seconds from now, target 15,
    10 tokens minted to user1 and 8 to user2, one deposit of 10 by user1. *)
Definition genesis : ledger :=
  Ledger 0 (fun _ => None) ∅ ∅ true [].

Definition setup : ledger :=
  let e := expect (initialize genesis "recipient" (now genesis + 10) 15 "token") genesis in
  let e := mint e "user1" 10 in
  let e := mint e "user2" 8 in
  expect (deposit true e "user1" 10) e.

(** The campaign after user2 has pledged 5 more (the target is met), and
    after the recipient has then withdrawn at the deadline. *)
Definition funded : ledger :=
  expect (deposit true setup "user2" 5) setup.

Definition paid_out : ledger :=
  expect (withdraw (advance_ledger funded 10) "recipient") funded.

End Ref.

End Crowdfund.

(* ===================================================================== *)
(** * Properties of the sidebar tree                                      *)
(* ===================================================================== *)

Import Sidebar.

Lemma page_ids_NoDup : NoDup (page_ids apiSidebar).
Proof. apply (bool_decide_unpack _). by vm_compute. Qed.

(** C5: in the exported navigation tree, any two item entries (at different
    positions, under whichever categories) carry different page
    identifiers. *)
Theorem sidebar_ids_pairwise_distinct (i j : nat) (a b : string) :
  i ≠ j ->
  page_ids apiSidebar !! i = Some a ->
  page_ids apiSidebar !! j = Some b ->
  a ≠ b.
Proof.
  intros Hij Ha Hb Hab. subst b.
  apply Hij. eapply NoDup_lookup; eauto using page_ids_NoDup.
Qed.

Lemma sidebar_ids_pairwise_distinct_witness :
  0 ≠ 15
  ∧ page_ids apiSidebar !! 0 = Some "goals"
  ∧ page_ids apiSidebar !! 15 = Some "methods/simulateTransaction"
  ∧ "goals" ≠ "methods/simulateTransaction".
Proof.
  split; [lia|]. split; [reflexivity|]. split; [reflexivity|].
  apply (sidebar_ids_pairwise_distinct 0 15); [lia | reflexivity | reflexivity].
Defined.

(** C6: the configuration module evaluates to one fixed value: exactly two
    categories, 'Introduction' then 'Request/Response Methods', with five and
    eleven page identifiers in the listed order. *)
Theorem apiSidebar_fixed_value :
  let intro :=
    [ "goals"; "anti-goals"; "json-rpc"; "pagination"; "outstanding-questions" ] in
  let methods :=
    [ "methods/getAccount"; "methods/getHealth"; "methods/getLatestLedger";
      "methods/getLedgerEntry"; "methods/getContractData"; "methods/getEvents";
      "methods/getNetwork"; "methods/getTransactionStatus";
      "methods/requestAirdrop"; "methods/sendTransaction";
      "methods/simulateTransaction" ] in
  categories apiSidebar
    = [ Some ("Introduction", map Some intro);
        Some ("Request/Response Methods", map Some methods) ]
  ∧ List.length apiSidebar = 2
  ∧ List.length intro = 5
  ∧ List.length methods = 11
  ∧ page_ids apiSidebar = (intro ++ methods)%list.
Proof.
  intros intro methods. subst intro methods.
  unfold categories, page_ids. cbn [map flat_map app apiSidebar category_view direct_id doc_ids List.length].
  repeat split.
Qed.

(** X9: every top-level entry of the tree is an expanded, collapsible
    category whose generated index page is titled like the category and
    which lists page identifiers only; the index pages have different slugs,
    and no page identifier is the slug of an index page. *)
Theorem apiSidebar_categories_well_formed :
  Forall (fun i => ∃ l slug ids,
            i = Category l true false (Link "generated-index" l slug) (map Doc ids))
         apiSidebar
  ∧ NoDup (category_slugs apiSidebar)
  ∧ Forall (fun id => id ∉ category_slugs apiSidebar) (page_ids apiSidebar).
Proof.
  split; [|split].
  - unfold apiSidebar. repeat constructor.
    + by eexists _, _, [_; _; _; _; _].
    + by eexists _, _, [_; _; _; _; _; _; _; _; _; _; _].
  - apply (bool_decide_unpack _). by vm_compute.
  - apply (bool_decide_unpack _). by vm_compute.
Qed.

(* ===================================================================== *)
(** * Properties of the reader-feedback widget                            *)
(* ===================================================================== *)

Import JS Feedback.

Ltac unfold_monad :=
  unfold bind, ret, throw, get_window, get_global, useIsBrowser, useState,
    setState in *.

Section WidgetProperties.

Variable host : host_behaviour.

(** ** The render function *)

Lemma ReaderFeedback_in_browser pageId s :
  browser s = true ->
  ReaderFeedback host pageId s = (Ok (view host (feedbackGiven s)), rendered s).
Proof.
  intros Hb. unfold ReaderFeedback, view, rendered, feedbackGiven.
  unfold_monad. rewrite Hb. cbn [negb].
  destruct (memoizedState s) as [v|]; reflexivity.
Qed.

Lemma ReaderFeedback_on_server pageId s :
  browser s = false -> ReaderFeedback host pageId s = (Ok Null, s).
Proof.
  intros Hb. unfold ReaderFeedback. unfold_monad. by rewrite Hb.
Qed.

Lemma rendered_browser s : browser (rendered s) = browser s.
Proof. unfold rendered. by destruct (memoizedState s). Qed.

Lemma rendered_sent s : sent (rendered s) = sent s.
Proof. unfold rendered. by destruct (memoizedState s). Qed.

Lemma rendered_window s : window (rendered s) = window s.
Proof. unfold rendered. by destruct (memoizedState s). Qed.

Lemma rendered_flag s : feedbackGiven (rendered s) = feedbackGiven s.
Proof.
  unfold rendered, feedbackGiven.
  destruct (memoizedState s) eqn:E; [by rewrite E | done].
Qed.

Lemma rendered_idem s : rendered (rendered s) = rendered s.
Proof.
  unfold rendered.
  destruct (memoizedState s) eqn:E; [by rewrite E | done].
Qed.

Lemma render_in_browser pageId w :
  browser (st w) = true ->
  render host pageId w
  = Widget (view host (feedbackGiven (st w))) (rendered (st w)) (uncaught w).
Proof.
  intros Hb. unfold render. by rewrite ReaderFeedback_in_browser.
Qed.

Lemma render_on_server pageId w :
  browser (st w) = false ->
  render host pageId w = Widget Null (st w) (uncaught w).
Proof.
  intros Hb. unfold render. by rewrite ReaderFeedback_on_server.
Qed.

Lemma onClick_of_view given i :
  onClick_of i (view host given)
  = if given then None else Some (giveFeedback host setState (value_of i)).
Proof. by destruct given, i. Qed.

(** ** The click handler *)

(** Without a truthy [window.ga] the handler only sets the flag. *)
Lemma giveFeedback_skips v s :
  truthy (default VUndefined (window s !! "ga")) = false ->
  giveFeedback host setState v s = (Ok tt, set_memoizedState (Some (VBool true)) s).
Proof.
  intros Hga. unfold giveFeedback. unfold_monad. by rewrite Hga.
Qed.

(** With a truthy [window.ga] and no global [label], evaluating the
    arguments of the call throws before anything is sent. *)
Lemma giveFeedback_unbound_label v s :
  truthy (default VUndefined (window s !! "ga")) = true ->
  window s !! "label" = None ->
  giveFeedback host setState v s = (Throw (ReferenceError "label"), s).
Proof.
  intros Hga Hl. unfold giveFeedback. unfold_monad. by rewrite Hga, Hl.
Qed.

(** Whatever happens, the handler makes at most one call, and that call
    carries the handler's argument as [eventValue]. *)
Lemma giveFeedback_sent v s :
  ∃ new, sent (giveFeedback host setState v s).2 = (sent s ++ new)%list
         ∧ List.length new <= 1
         ∧ Forall (λ c, get_prop "eventValue" (payload c) = v) new.
Proof.
  unfold giveFeedback. unfold_monad.
  destruct (truthy (default VUndefined (window s !! "ga"))).
  2:{ exists []. cbn. rewrite app_nil_r. auto. }
  destruct (window s !! "label") as [l|].
  2:{ exists []. cbn. rewrite app_nil_r. auto. }
  destruct (default VUndefined (window s !! "ga")) as [| | | | | |f];
    try (exists []; cbn; rewrite app_nil_r; by auto).
  unfold call.
  destruct (host f _ (window s)) as [[e|] g]; cbn;
    (eexists [_]; split; [reflexivity|]; split; [cbn; lia|]);
    by repeat constructor.
Qed.

Lemma giveFeedback_browser v s :
  browser (giveFeedback host setState v s).2 = browser s.
Proof.
  unfold giveFeedback. unfold_monad.
  destruct (truthy (default VUndefined (window s !! "ga"))); [|done].
  destruct (window s !! "label") as [l|]; [|done].
  destruct (default VUndefined (window s !! "ga")) as [| | | | | |f]; try done.
  unfold call. by destruct (host f _ (window s)) as [[e|] g].
Qed.

(** With a function at [window.ga], a global [label] and a hook that
    returns, the handler makes the one call and then sets the flag. *)
Lemma giveFeedback_sends v s f l g :
  let args :=
    [ VStr "send";
      VObj [ ("hitType", VStr "event");
             ("eventCategory", VStr "button");
             ("eventAction", VStr "feedback");
             ("eventLabel", l);
             ("eventValue", v) ] ] in
  window s !! "ga" = Some (VFun f) ->
  window s !! "label" = Some l ->
  host f args (window s) = (None, g) ->
  giveFeedback host setState v s
  = (Ok tt, set_memoizedState (Some (VBool true))
              (set_window g (log_call (f, args) s))).
Proof.
  intros args Hga Hl Hh.
  assert (Ht : truthy (default VUndefined (window s !! "ga")) = true)
    by (by rewrite Hga).
  assert (Hf : default VUndefined (window s !! "ga") = VFun f)
    by (by rewrite Hga).
  unfold giveFeedback. unfold_monad. rewrite Ht, Hl, Hf.
  unfold call. fold args. by rewrite Hh.
Qed.

(** ** Renders, clicks and runs *)

Lemma render_sent pageId w : sent (st (render host pageId w)) = sent (st w).
Proof.
  destruct (browser (st w)) eqn:Hb.
  - rewrite render_in_browser by done. apply rendered_sent.
  - by rewrite render_on_server.
Qed.

Lemma render_uncaught pageId w : uncaught (render host pageId w) = uncaught w.
Proof.
  destruct (browser (st w)) eqn:Hb.
  - by rewrite render_in_browser.
  - by rewrite render_on_server.
Qed.

Lemma render_handlers_ok pageId w : handlers_ok host (render host pageId w).
Proof.
  intros i h. destruct (browser (st w)) eqn:Hb.
  - rewrite render_in_browser by done. cbn [tree].
    rewrite onClick_of_view. destruct (feedbackGiven (st w)); congruence.
  - rewrite render_on_server by done. discriminate.
Qed.

Lemma mount_handlers_ok pageId s : handlers_ok host (mount host pageId s).
Proof. apply render_handlers_ok. Qed.

Lemma mount_sent pageId s : sent (st (mount host pageId s)) = sent s.
Proof. unfold mount. by rewrite render_sent. Qed.

Lemma step_handlers_ok pageId w ev :
  handlers_ok host w -> handlers_ok host (step host pageId w ev).
Proof.
  intros Hw. destruct ev as [i| |]; cbn [step]; try apply render_handlers_ok.
  unfold click. destruct (onClick_of i (tree w)) as [h|]; [|done].
  destruct (h (st w)) as [[[]|x] s']; apply render_handlers_ok.
Qed.

Lemma step_sent pageId w ev :
  handlers_ok host w ->
  ∃ new, sent (st (step host pageId w ev)) = (sent (st w) ++ new)%list
         ∧ Forall binary new.
Proof.
  intros Hw. destruct ev as [i| |]; cbn [step].
  - unfold click. destruct (onClick_of i (tree w)) as [h|] eqn:Hh.
    2:{ exists []. by rewrite app_nil_r. }
    apply Hw in Hh. subst h.
    destruct (giveFeedback_sent (value_of i) (st w)) as (new & Hs & _ & Hv).
    exists new. split.
    + destruct (giveFeedback host setState (value_of i) (st w)) as [[[]|x] s'];
        by rewrite render_sent.
    + eapply Forall_impl; [exact Hv|]. intros c Hc. unfold binary.
      rewrite Hc. destruct i; auto.
  - exists []. by rewrite render_sent, app_nil_r.
  - exists []. by rewrite render_sent, app_nil_r.
Qed.

Lemma run_sent pageId evs w :
  handlers_ok host w ->
  handlers_ok host (run host pageId evs w)
  ∧ ∃ new, sent (st (run host pageId evs w)) = (sent (st w) ++ new)%list
           ∧ Forall binary new.
Proof.
  revert w. induction evs as [|ev evs IH]; intros w Hw; cbn [run fold_left].
  - split; [done|]. exists []. by rewrite app_nil_r.
  - destruct (step_sent pageId w ev Hw) as (n1 & H1 & F1).
    destruct (IH _ (step_handlers_ok pageId w ev Hw)) as (Hok & n2 & H2 & F2).
    split; [exact Hok|]. exists (n1 ++ n2)%list. split.
    + unfold run in H2. rewrite H2, H1. by rewrite app_assoc.
    + by apply Forall_app.
Qed.

(** Once the flag is set, no event changes the widget. *)
Lemma step_given pageId s errs ev :
  browser s = true -> feedbackGiven s = true ->
  step host pageId (Widget thanks s errs) ev = Widget thanks s errs.
Proof.
  intros Hb Hg.
  assert (Hr : rendered s = s).
  { unfold rendered, feedbackGiven in *. by destruct (memoizedState s). }
  destruct ev as [i| |]; cbn [step].
  - by destruct i.
  - rewrite render_in_browser by done. cbn [st uncaught]. by rewrite Hg, Hr.
  - assert (Hs : set_browser true s = s) by (destruct s; cbn in *; by subst).
    cbn [tree st uncaught]. rewrite Hs.
    rewrite render_in_browser by done. cbn [st uncaught]. by rewrite Hg, Hr.
Qed.

Lemma run_given pageId s errs evs :
  browser s = true -> feedbackGiven s = true ->
  run host pageId evs (Widget thanks s errs) = Widget thanks s errs.
Proof.
  intros Hb Hg. induction evs as [|ev evs IH]; [done|].
  cbn [run fold_left]. rewrite step_given by done. exact IH.
Qed.

(** ** Specification statements *)

(** C8: rendered outside a browser, [ReaderFeedback] returns [null] for every
    [pageId] and leaves the state as it was: the state cell is not
    initialised, no handler is attached and nothing is sent. *)
Theorem ReaderFeedback_server_side pageId s :
  browser s = false ->
  ReaderFeedback host pageId s = (Ok Null, s)
  ∧ let w := mount host pageId s in
    tree w = Null
    ∧ (∀ i, onClick_of i (tree w) = None)
    ∧ memoizedState (st w) = None
    ∧ sent (st w) = sent s
    ∧ uncaught w = [].
Proof.
  intros Hb. split; [by apply ReaderFeedback_on_server|].
  cbn zeta. unfold mount. rewrite render_on_server by done.
  by repeat split.
Qed.

(** C7: every mount in a browser starts with the flag 'not given' and shows
    the question with the thumbs-up and thumbs-down controls, for every
    [pageId] and whatever the state cell held before the mount. *)
Theorem mount_starts_not_given pageId s :
  browser s = true ->
  let w := mount host pageId s in
  tree w
  = Div "readerFeedback"
      [ Text "Did you find this page helpful?";
        Icon IconThumbsUp "feedback_thumbsup" (giveFeedback host setState (VNum 1));
        Icon IconThumbsDown "feedback_thumbsdown" (giveFeedback host setState (VNum 0)) ]
  ∧ shows_controls (tree w) = true
  ∧ memoizedState (st w) = Some (VBool false)
  ∧ feedbackGiven (st w) = false
  ∧ sent (st w) = sent s
  ∧ uncaught w = [].
Proof.
  intros Hb. cbn zeta. unfold mount.
  rewrite render_in_browser by (by destruct s).
  by repeat split.
Qed.

(** C3: when [window.ga] is absent, a click on either control of the
    'not given' widget does not throw: the handler returns normally without
    any call, nothing is reported, and the widget shows its thanks message. *)
Theorem click_without_ga pageId i s errs :
  browser s = true ->
  window s !! "ga" = None ->
  feedbackGiven s = false ->
  let w := render host pageId (Widget Null s errs) in
  let w' := click host pageId i w in
  (giveFeedback host setState (value_of i) (st w)).1 = Ok tt
  ∧ tree w' = thanks
  ∧ uncaught w' = errs
  ∧ sent (st w') = sent s
  ∧ feedbackGiven (st w') = true.
Proof.
  intros Hb Hga Hg. cbn zeta.
  rewrite render_in_browser by done. cbn [st uncaught]. rewrite Hg.
  assert (Hskip : truthy (default VUndefined (window (rendered s) !! "ga")) = false)
    by (by rewrite rendered_window, Hga).
  unfold click. cbn [tree st uncaught]. rewrite onClick_of_view. cbn match.
  rewrite (giveFeedback_skips _ _ Hskip).
  split; [done|].
  rewrite render_in_browser by (cbn; by rewrite rendered_browser).
  cbn. by rewrite rendered_sent.
Qed.

(** C4: once the flag is 'given', every later render of that mount, after
    any sequence of clicks and re-renders, shows only the thanks message and
    neither control; no further call is made and the flag stays set. *)
Theorem given_is_final pageId t s errs evs :
  browser s = true ->
  feedbackGiven s = true ->
  let w := run host pageId evs (render host pageId (Widget t s errs)) in
  tree w = thanks
  ∧ shows_controls (tree w) = false
  ∧ (∀ i, onClick_of i (tree w) = None)
  ∧ sent (st w) = sent s
  ∧ feedbackGiven (st w) = true
  ∧ uncaught w = errs.
Proof.
  intros Hb Hg. cbn zeta.
  rewrite render_in_browser by done. cbn [st uncaught]. rewrite Hg.
  assert (Hr : rendered s = s).
  { unfold rendered, feedbackGiven in *. by destruct (memoizedState s). }
  rewrite Hr. change (view host true) with thanks.
  rewrite run_given by done. cbn [tree st uncaught].
  by repeat split.
Qed.

(** C9: the widget does not depend on its [pageId] prop: for any two values
    the mounted widget and every run from it coincide, rendered output,
    state and calls (payloads included). *)
Theorem pageId_irrelevant p1 p2 s evs :
  ReaderFeedback host p1 = ReaderFeedback host p2
  ∧ mount host p1 s = mount host p2 s
  ∧ run host p1 evs (mount host p1 s) = run host p2 evs (mount host p2 s).
Proof.
  assert (Hstep : ∀ w ev, step host p1 w ev = step host p2 w ev).
  { intros w [i| |]; reflexivity. }
  split; [reflexivity|]. split; [reflexivity|].
  change (mount host p2 s) with (mount host p1 s).
  generalize (mount host p1 s). induction evs as [|ev evs IH]; intros w.
  - reflexivity.
  - cbn [run fold_left]. rewrite Hstep. apply IH.
Qed.

(** C1, at the failing input: with a truthy [window.ga] and no global
    [label], a click on the 'not given' widget does not complete.  The
    handler throws [ReferenceError] while building the payload, so the flag
    stays false, nothing is sent and the controls stay on the page. *)
Theorem click_with_ga_throws pageId i s errs :
  browser s = true ->
  truthy (default VUndefined (window s !! "ga")) = true ->
  window s !! "label" = None ->
  feedbackGiven s = false ->
  let w := render host pageId (Widget Null s errs) in
  let w' := click host pageId i w in
  giveFeedback host setState (value_of i) (st w)
  = (Throw (ReferenceError "label"), st w)
  ∧ w' = Widget (tree w) (st w) (errs ++ [ReferenceError "label"])
  ∧ feedbackGiven (st w') = false
  ∧ shows_controls (tree w') = true.
Proof.
  intros Hb Hga Hl Hg. cbn zeta.
  rewrite render_in_browser by done. cbn [st uncaught tree]. rewrite Hg.
  assert (Hthrow : giveFeedback host setState (value_of i) (rendered s)
                   = (Throw (ReferenceError "label"), rendered s)).
  { apply giveFeedback_unbound_label; by rewrite rendered_window. }
  split; [exact Hthrow|].
  unfold click. cbn [tree st uncaught]. rewrite onClick_of_view. cbn match.
  rewrite Hthrow.
  rewrite render_in_browser by (cbn; by rewrite rendered_browser).
  cbn [st uncaught tree]. rewrite rendered_flag, Hg, rendered_idem.
  split; [done|]. split; [by rewrite rendered_flag | done].
Qed.

End WidgetProperties.


(** ** The model run on concrete pages *)

Lemma ReaderFeedback_server_side_witness :
  browser server_page = false
  ∧ ReaderFeedback quiet (VStr "goals") server_page = (Ok Null, server_page).
Proof.
  split; [reflexivity|].
  apply (ReaderFeedback_server_side quiet (VStr "goals") server_page).
  reflexivity.
Defined.

Lemma mount_starts_not_given_witness :
  browser (set_memoizedState (Some (VBool true)) page_with_ga) = true
  ∧ feedbackGiven
      (st (mount quiet (VStr "goals")
             (set_memoizedState (Some (VBool true)) page_with_ga))) = false.
Proof.
  split; [reflexivity|].
  apply (mount_starts_not_given quiet (VStr "goals")
           (set_memoizedState (Some (VBool true)) page_with_ga)).
  reflexivity.
Defined.

Lemma click_without_ga_witness :
  browser page_without_ga = true
  ∧ window page_without_ga !! "ga" = None
  ∧ feedbackGiven page_without_ga = false
  ∧ tree (click quiet (VStr "goals") IconThumbsDown
            (render quiet (VStr "goals") (Widget Null page_without_ga [])))
    = thanks.
Proof.
  split; [reflexivity|]. split; [reflexivity|]. split; [reflexivity|].
  apply (click_without_ga quiet (VStr "goals") IconThumbsDown page_without_ga []);
    reflexivity.
Defined.

Lemma given_is_final_witness :
  browser (set_memoizedState (Some (VBool true)) page_with_ga_and_label) = true
  ∧ feedbackGiven (set_memoizedState (Some (VBool true)) page_with_ga_and_label) = true
  ∧ sent (st (run quiet (VStr "goals")
                [Click IconThumbsUp; Rerender; Click IconThumbsDown; Hydrate]
                (render quiet (VStr "goals")
                   (Widget Null
                      (set_memoizedState (Some (VBool true)) page_with_ga_and_label)
                      []))))
    = [].
Proof.
  split; [reflexivity|]. split; [reflexivity|].
  apply (given_is_final quiet (VStr "goals") Null
           (set_memoizedState (Some (VBool true)) page_with_ga_and_label) []
           [Click IconThumbsUp; Rerender; Click IconThumbsDown; Hydrate]);
    reflexivity.
Defined.

Lemma click_with_ga_throws_witness :
  browser page_with_ga = true
  ∧ truthy (default VUndefined (window page_with_ga !! "ga")) = true
  ∧ window page_with_ga !! "label" = None
  ∧ feedbackGiven page_with_ga = false
  ∧ giveFeedback quiet setState (VNum 1)
      (st (render quiet (VStr "goals") (Widget Null page_with_ga [])))
    = (Throw (ReferenceError "label"),
       st (render quiet (VStr "goals") (Widget Null page_with_ga []))).
Proof.
  split; [reflexivity|]. split; [reflexivity|]. split; [reflexivity|].
  split; [reflexivity|].
  apply (click_with_ga_throws quiet (VStr "goals") IconThumbsUp page_with_ga []);
    reflexivity.
Defined.

(** C2, at the failing input: [window.ga] is a function, yet a click on
    either control sends no event at all; the [ReferenceError] for [label]
    is what the page reports instead. *)
Theorem ga_present_nothing_sent :
  window page_with_ga !! "ga" = Some (VFun "ga")
  ∧ ∀ i, let w := click quiet (VStr "goals") i
                    (mount quiet (VStr "goals") page_with_ga) in
         sent (st w) = []
         ∧ uncaught w = [ReferenceError "label"]
         ∧ feedbackGiven (st w) = false.
Proof.
  split; [reflexivity|]. intros i. cbn zeta.
  destruct i; vm_compute; by repeat split.
Qed.

(** The intended path, reachable only when the page defines a global
    [label]: one call with the four event fields, then the thanks message. *)
Lemma click_when_label_resolves :
  let w := run quiet (VStr "goals") [Click IconThumbsDown; Click IconThumbsUp]
             (mount quiet (VStr "goals") page_with_ga_and_label) in
  sent (st w)
  = [ ("ga",
       [ VStr "send";
         VObj [ ("hitType", VStr "event");
                ("eventCategory", VStr "button");
                ("eventAction", VStr "feedback");
                ("eventLabel", VStr "intro");
                ("eventValue", VNum 0) ] ]) ]
  ∧ tree w = thanks
  ∧ uncaught w = [].
Proof. vm_compute. by repeat split. Qed.

(* ===================================================================== *)
(** * Further properties of the reader-feedback widget                    *)
(* ===================================================================== *)

Section HandlerOutcomes.

Variable host : host_behaviour.

(** The handler, case by case on what it finds on the page. *)
Lemma giveFeedback_cases v s :
  let r := giveFeedback host setState v s in
  (truthy (default VUndefined (window s !! "ga")) = false
   ∧ r = (Ok tt, set_memoizedState (Some (VBool true)) s))
  ∨ (truthy (default VUndefined (window s !! "ga")) = true
     ∧ window s !! "label" = None
     ∧ r = (Throw (ReferenceError "label"), s))
  ∨ (∃ l, truthy (default VUndefined (window s !! "ga")) = true
          ∧ (∀ f, window s !! "ga" ≠ Some (VFun f))
          ∧ window s !! "label" = Some l
          ∧ r = (Throw (TypeError "not a function"), s))
  ∨ (∃ f l g, window s !! "ga" = Some (VFun f)
              ∧ window s !! "label" = Some l
              ∧ host f (ga_args l v) (window s) = (None, g)
              ∧ r = (Ok tt, set_memoizedState (Some (VBool true))
                              (set_window g (log_call (f, ga_args l v) s))))
  ∨ (∃ f l g e, window s !! "ga" = Some (VFun f)
                ∧ window s !! "label" = Some l
                ∧ host f (ga_args l v) (window s) = (Some e, g)
                ∧ r = (Throw e, set_window g (log_call (f, ga_args l v) s))).
Proof.
  cbn zeta.
  destruct (truthy (default VUndefined (window s !! "ga"))) eqn:Ht.
  2:{ left. split; [done|]. by apply giveFeedback_skips. }
  right. destruct (window s !! "label") as [l|] eqn:Hl.
  2:{ left. repeat split; try done. by apply giveFeedback_unbound_label. }
  right.
  destruct (window s !! "ga") as [ga|] eqn:Hga; [|discriminate Ht].
  cbn [default from_option id] in Ht.
  assert (Hrun : giveFeedback host setState v s
                 = match call host ga (ga_args l v) s with
                   | (Ok _, s') => (Ok tt, set_memoizedState (Some (VBool true)) s')
                   | (Throw e, s') => (Throw e, s')
                   end).
  { unfold giveFeedback. unfold_monad. rewrite Hga. cbn [default from_option id].
    rewrite Ht, Hl. fold (ga_args l v). rewrite Hga.
    change (default VUndefined (Some ga)) with ga.
    by destruct (call host ga (ga_args l v) s) as [[a|e] s']. }
  rewrite Hrun.
  assert (Hcase : (∃ f, ga = VFun f) ∨ (∀ f, ga ≠ VFun f)).
  { destruct ga; try (right; by intros f0); left; by eexists. }
  destruct Hcase as [[f ->]|Hnf].
  - right. unfold call.
    destruct (host f (ga_args l v) (window s)) as [[e|] g] eqn:Hh.
    + right. by exists f, l, g, e.
    + left. by exists f, l, g.
  - left. exists l. repeat split; try done.
    + intros f [= ->]. by apply (Hnf f).
    + unfold call, throw. destruct ga; try done. by destruct (Hnf name).
Qed.

(** X1: the handler returns normally exactly when [window.ga] is falsy, or
    [window.ga] is a function, a global [label] exists and the hook returns;
    a handler that returns has set the flag, and one that throws has left the
    flag as it was. *)
Theorem giveFeedback_completes_iff v s :
  ((giveFeedback host setState v s).1 = Ok tt
   ↔ truthy (default VUndefined (window s !! "ga")) = false
     ∨ ∃ f l, window s !! "ga" = Some (VFun f)
              ∧ window s !! "label" = Some l
              ∧ (host f (ga_args l v) (window s)).1 = None)
  ∧ ((giveFeedback host setState v s).1 = Ok tt
     → feedbackGiven (giveFeedback host setState v s).2 = true)
  ∧ (∀ e, (giveFeedback host setState v s).1 = Throw e
          → feedbackGiven (giveFeedback host setState v s).2 = feedbackGiven s).
Proof.
  destruct (giveFeedback_cases v s)
    as [(Ht & ->)|[(Ht & Hl & ->)|[(l & Ht & Hnf & Hl & ->)
       |[(f & l & g & Hga & Hl & Hh & ->)|(f & l & g & e & Hga & Hl & Hh & ->)]]]];
    cbn [fst snd].
  - split; [|done]. split; [by left|done].
  - split; [|done]. split; [done|].
    intros [Hf|(f & l & _ & Hl' & _)]; congruence.
  - split; [|done]. split; [done|].
    intros [Hf|(f & l' & Hga & _)]; [congruence|]. by destruct (Hnf f).
  - split; [|done]. split; [|done]. intros _. right. exists f, l.
    by rewrite Hh.
  - split; [|done]. split; [done|].
    intros [Hf|(f' & l' & Hga' & Hl' & Hh')].
    + by rewrite Hga in Hf.
    + rewrite Hga in Hga'. rewrite Hl in Hl'. simplify_eq. by rewrite Hh in Hh'.
Qed.

(** ** Renders *)

Lemma render_flag pageId w :
  feedbackGiven (st (render host pageId w)) = feedbackGiven (st w).
Proof.
  destruct (browser (st w)) eqn:Hb.
  - rewrite render_in_browser by done. apply rendered_flag.
  - by rewrite render_on_server.
Qed.

Lemma render_browser pageId w :
  browser (st (render host pageId w)) = browser (st w).
Proof.
  destruct (browser (st w)) eqn:Hb.
  - rewrite render_in_browser by done. cbn [st]. by rewrite rendered_browser.
  - by rewrite render_on_server.
Qed.

Lemma render_window pageId w :
  window (st (render host pageId w)) = window (st w).
Proof.
  destruct (browser (st w)) eqn:Hb.
  - rewrite render_in_browser by done. apply rendered_window.
  - by rewrite render_on_server.
Qed.

Lemma render_in_sync pageId w : in_sync host (render host pageId w).
Proof.
  unfold in_sync. rewrite render_browser, render_flag.
  destruct (browser (st w)) eqn:Hb.
  - by rewrite render_in_browser.
  - by rewrite render_on_server.
Qed.

(** X6: rendering is idempotent: a second render of the same state returns
    the same output and changes nothing. *)
Theorem render_idempotent pageId w :
  render host pageId (render host pageId w) = render host pageId w.
Proof.
  destruct (browser (st w)) eqn:Hb.
  - rewrite (render_in_browser host pageId w) by done.
    rewrite render_in_browser by (cbn [st]; by rewrite rendered_browser).
    cbn [st uncaught]. by rewrite rendered_flag, rendered_idem.
  - rewrite (render_on_server host pageId w) by done.
    by rewrite render_on_server.
Qed.

(** X2: mounting on the server and hydrating afterwards gives exactly the
    widget a mount in the browser gives. *)
Theorem hydrate_after_server_mount pageId s :
  browser s = false ->
  step host pageId (mount host pageId s) Hydrate
  = mount host pageId (set_browser true s).
Proof.
  intros Hb. unfold mount. rewrite render_on_server by done. reflexivity.
Qed.

(** ** Clicks *)

Lemma click_not_given pageId i s errs :
  browser s = true ->
  feedbackGiven s = false ->
  click host pageId i (render host pageId (Widget Null s errs))
  = match giveFeedback host setState (value_of i) (rendered s) with
    | (Ok _, s') => render host pageId (Widget (view host false) s' errs)
    | (Throw x, s') => render host pageId (Widget (view host false) s' (errs ++ [x]))
    end.
Proof.
  intros Hb Hg. rewrite render_in_browser by done. cbn [st uncaught].
  rewrite Hg. unfold click. cbn [tree st uncaught].
  by rewrite onClick_of_view.
Qed.

(** X5: a truthy [window.ga] that is not a function passes the guard; the
    call then throws [TypeError], nothing is sent, the flag stays false and
    the controls stay. *)
Theorem click_when_ga_not_callable pageId i s errs ga l :
  browser s = true ->
  feedbackGiven s = false ->
  window s !! "ga" = Some ga ->
  truthy ga = true ->
  (∀ f, ga ≠ VFun f) ->
  window s !! "label" = Some l ->
  let w' := click host pageId i (render host pageId (Widget Null s errs)) in
  sent (st w') = sent s
  ∧ uncaught w' = (errs ++ [TypeError "not a function"])%list
  ∧ feedbackGiven (st w') = false
  ∧ tree w' = view host false.
Proof.
  intros Hb Hg Hga Ht Hnf Hl. cbn zeta. rewrite click_not_given by done.
  destruct (giveFeedback_cases (value_of i) (rendered s))
    as [(Ht' & _)|[(_ & Hl' & _)|[(l' & _ & _ & _ & ->)
       |[(f' & l' & g' & Hga' & _)|(f' & l' & g' & e' & Hga' & _)]]]];
    rewrite ?rendered_window in *.
  - rewrite Hga in Ht'. cbn in Ht'. congruence.
  - congruence.
  - rewrite render_in_browser by (cbn; by rewrite rendered_browser).
    cbn [st uncaught tree].
    by rewrite rendered_idem, rendered_sent, !rendered_flag, Hg.
  - rewrite Hga in Hga'. simplify_eq. by destruct (Hnf f').
  - rewrite Hga in Hga'. simplify_eq. by destruct (Hnf f').
Qed.

(** ** Runs *)

Lemma click_hidden pageId i w :
  in_sync host w ->
  browser (st w) = false ∨ feedbackGiven (st w) = true ->
  click host pageId i w = w.
Proof.
  unfold in_sync. intros Hs Hc. unfold click. rewrite Hs.
  destruct Hc as [-> | Hg]; [done|].
  destruct (browser (st w)); [|done]. by rewrite onClick_of_view, Hg.
Qed.

Lemma click_shown pageId i w :
  in_sync host w ->
  browser (st w) = true ->
  feedbackGiven (st w) = false ->
  click host pageId i w
  = match giveFeedback host setState (value_of i) (st w) with
    | (Ok _, s') => render host pageId (Widget (tree w) s' (uncaught w))
    | (Throw x, s') => render host pageId (Widget (tree w) s' (uncaught w ++ [x]))
    end.
Proof.
  unfold in_sync. intros Hs Hb Hg. unfold click. rewrite Hs, Hb, Hg.
  by rewrite onClick_of_view.
Qed.

Lemma step_in_sync pageId w ev :
  in_sync host w -> in_sync host (step host pageId w ev).
Proof.
  intros Hs. destruct ev as [i| |]; cbn [step]; try apply render_in_sync.
  unfold click. destruct (onClick_of i (tree w)) as [h|]; [|done].
  destruct (h (st w)) as [[[]|x] s']; apply render_in_sync.
Qed.

Lemma mount_in_sync pageId s : in_sync host (mount host pageId s).
Proof. apply render_in_sync. Qed.

(** What one event adds to the call log. *)
Lemma step_calls pageId w ev :
  in_sync host w ->
  ∃ new, sent (st (step host pageId w ev)) = (sent (st w) ++ new)%list
         ∧ Forall event_shape new
         ∧ (is_click ev = false -> new = [])
         ∧ (feedbackGiven (st w) = true -> new = []).
Proof.
  intros Hs. destruct ev as [i| |]; cbn [step is_click].
  2,3: exists []; rewrite render_sent, app_nil_r; by repeat split.
  destruct (browser (st w)) eqn:Hb.
  2:{ rewrite click_hidden by auto. exists []. by rewrite app_nil_r. }
  destruct (feedbackGiven (st w)) eqn:Hg.
  { rewrite click_hidden by auto. exists []. by rewrite app_nil_r. }
  rewrite click_shown by done.
  destruct (giveFeedback_cases (value_of i) (st w))
    as [(_ & ->)|[(_ & _ & ->)|[(l & _ & _ & _ & ->)
       |[(f & l & g & _ & _ & _ & ->)|(f & l & g & e & _ & _ & _ & ->)]]]];
    rewrite render_sent; cbn [st sent set_window set_memoizedState log_call].
  1-3: exists []; rewrite app_nil_r; by repeat split.
  all: exists [(f, ga_args l (value_of i))]; repeat split; try done;
    constructor; [by exists l, i | constructor].
Qed.

(** A click on a shown control, with a function at [window.ga] and a
    global [label], adds exactly the call for that control, whether the
    hook returns or throws. *)
Lemma click_calls pageId i w f l r g :
  in_sync host w ->
  browser (st w) = true ->
  feedbackGiven (st w) = false ->
  window (st w) !! "ga" = Some (VFun f) ->
  window (st w) !! "label" = Some l ->
  host f (ga_args l (value_of i)) (window (st w)) = (r, g) ->
  sent (st (click host pageId i w))
  = (sent (st w) ++ [(f, ga_args l (value_of i))])%list.
Proof.
  intros Hs Hb Hg Hga Hl Hh. rewrite click_shown by done.
  destruct (giveFeedback_cases (value_of i) (st w))
    as [(Ht & _)|[(_ & Hl' & _)|[(l' & _ & Hnf & _)
       |[(f' & l' & g' & Hga' & Hl' & _ & ->)
        |(f' & l' & g' & e' & Hga' & Hl' & _ & ->)]]]].
  - by rewrite Hga in Ht.
  - congruence.
  - by destruct (Hnf f).
  - rewrite Hga in Hga'. rewrite Hl in Hl'. simplify_eq.
    by rewrite render_sent.
  - rewrite Hga in Hga'. rewrite Hl in Hl'. simplify_eq.
    by rewrite render_sent.
Qed.

(** X4: when the hook throws, the call has been made and the exception is
    reported, but the flag is not set: the question and both controls stay,
    and a further click sends again whenever the hook has left a function at
    [window.ga] and a global [label]. *)
Theorem click_when_hook_throws pageId i s errs f l e g :
  browser s = true ->
  feedbackGiven s = false ->
  window s !! "ga" = Some (VFun f) ->
  window s !! "label" = Some l ->
  host f (ga_args l (value_of i)) (window s) = (Some e, g) ->
  let w' := click host pageId i (render host pageId (Widget Null s errs)) in
  sent (st w') = (sent s ++ [(f, ga_args l (value_of i))])%list
  ∧ uncaught w' = (errs ++ [e])%list
  ∧ feedbackGiven (st w') = false
  ∧ tree w' = view host false
  ∧ window (st w') = g
  ∧ ∀ j f2 l2 r2 g2,
      g !! "ga" = Some (VFun f2) ->
      g !! "label" = Some l2 ->
      host f2 (ga_args l2 (value_of j)) g = (r2, g2) ->
      sent (st (click host pageId j w'))
      = (sent s ++ [ (f, ga_args l (value_of i));
                     (f2, ga_args l2 (value_of j)) ])%list.
Proof.
  intros Hb Hg Hga Hl Hh. cbn zeta.
  set (w' := click host pageId i (render host pageId (Widget Null s errs))).
  assert (Hfirst :
    sent (st w') = (sent s ++ [(f, ga_args l (value_of i))])%list
    ∧ uncaught w' = (errs ++ [e])%list
    ∧ feedbackGiven (st w') = false
    ∧ tree w' = view host false
    ∧ window (st w') = g
    ∧ browser (st w') = true).
  2:{ destruct Hfirst as (H1 & H2 & H3 & H4 & H5 & H6).
      do 5 (split; [done|]). intros j f2 l2 r2 g2 Hga2 Hl2 Hh2.
      assert (Hs : in_sync host w') by (unfold in_sync; by rewrite H4, H6, H3).
      rewrite <- H5 in Hga2, Hl2, Hh2.
      rewrite (click_calls pageId j w' f2 l2 r2 g2 Hs H6 H3 Hga2 Hl2 Hh2).
      by rewrite H1, <- app_assoc. }
  subst w'. rewrite click_not_given by done.
  destruct (giveFeedback_cases (value_of i) (rendered s))
    as [(Ht & _)|[(_ & Hl' & _)|[(l' & _ & Hnf & _)
       |[(f' & l' & g' & Hga' & Hl' & Hh' & _)
        |(f' & l' & g' & e' & Hga' & Hl' & Hh' & ->)]]]];
    rewrite ?rendered_window in *.
  - by rewrite Hga in Ht.
  - congruence.
  - by destruct (Hnf f).
  - rewrite Hga in Hga'. rewrite Hl in Hl'. simplify_eq. congruence.
  - rewrite Hga in Hga'. rewrite Hl in Hl'. simplify_eq.
    rewrite Hh in Hh'. simplify_eq.
    rewrite render_in_browser by (cbn; by rewrite rendered_browser).
    cbn [st uncaught tree].
    assert (Hf : feedbackGiven
                   (set_window g' (log_call (f', ga_args l' (value_of i)) (rendered s)))
                 = false)
      by (transitivity (feedbackGiven (rendered s));
          [reflexivity | by rewrite rendered_flag]).
    rewrite Hf. repeat split.
    + rewrite rendered_sent. cbn. by rewrite rendered_sent.
    + by rewrite rendered_flag.
    + by rewrite rendered_window.
    + rewrite rendered_browser. cbn. by rewrite rendered_browser.
Qed.

Lemma run_in_sync pageId evs w :
  in_sync host w -> in_sync host (run host pageId evs w).
Proof.
  revert w. induction evs as [|ev evs IH]; intros w Hs; [done|].
  cbn [run fold_left]. by apply IH, step_in_sync.
Qed.

(** C10: on every page a run can reach, the thumbs-up control calls the
    handler with 1 and the thumbs-down control with 0, and every call the run
    adds carries 1 or 0 as its [eventValue].  While the flag is 'not given'
    in a browser both controls are on the page and wired that way, and a
    click that reaches the hook passes the value of its control. *)
Theorem feedback_values pageId s evs :
  let w := run host pageId evs (mount host pageId s) in
  (∀ h, onClick_of IconThumbsUp (tree w) = Some h ->
        h = giveFeedback host setState (VNum 1))
  ∧ (∀ h, onClick_of IconThumbsDown (tree w) = Some h ->
          h = giveFeedback host setState (VNum 0))
  ∧ (∃ new, sent (st w) = (sent s ++ new)%list ∧ Forall binary new)
  ∧ (browser (st w) = true -> feedbackGiven (st w) = false ->
     onClick_of IconThumbsUp (tree w) = Some (giveFeedback host setState (VNum 1))
     ∧ onClick_of IconThumbsDown (tree w) = Some (giveFeedback host setState (VNum 0)))
  ∧ (∀ i f l r g,
       browser (st w) = true -> feedbackGiven (st w) = false ->
       window (st w) !! "ga" = Some (VFun f) ->
       window (st w) !! "label" = Some l ->
       host f (ga_args l (value_of i)) (window (st w)) = (r, g) ->
       ∃ c, sent (st (click host pageId i w)) = (sent (st w) ++ [c])%list
            ∧ get_prop "eventValue" (payload c)
              = match i with
                | IconThumbsUp => VNum 1
                | IconThumbsDown => VNum 0
                end).
Proof.
  cbn zeta.
  destruct (run_sent host pageId evs _ (mount_handlers_ok host pageId s))
    as (Hok & new & Hs & Hv).
  pose proof (run_in_sync pageId evs _ (mount_in_sync pageId s)) as Hsync.
  split; [|split; [|split; [|split]]].
  - intros h Hh. by apply (Hok IconThumbsUp).
  - intros h Hh. by apply (Hok IconThumbsDown).
  - exists new. by rewrite Hs, mount_sent.
  - intros Hb Hg. unfold in_sync in Hsync. rewrite Hb, Hg in Hsync.
    by rewrite Hsync.
  - intros i f l r g Hb Hg Hga Hl Hh.
    exists (f, ga_args l (value_of i)). split.
    + by apply (click_calls pageId i _ f l r g).
    + by destruct i.
Qed.

(** X7: every call a run adds has the shape the handler builds: the
    arguments are ['send', payload] and the payload has hitType 'event',
    eventCategory 'button', eventAction 'feedback', some eventLabel and the
    value of one of the two controls. *)
Theorem run_event_shape pageId s evs :
  ∃ new, sent (st (run host pageId evs (mount host pageId s))) = (sent s ++ new)%list
         ∧ Forall event_shape new.
Proof.
  rewrite <- (mount_sent host pageId s).
  generalize (mount_in_sync pageId s). generalize (mount host pageId s).
  induction evs as [|ev evs IH]; intros w Hs; cbn [run fold_left].
  - exists []. by rewrite app_nil_r.
  - destruct (step_calls pageId w ev Hs) as (n1 & H1 & F1 & _).
    destruct (IH _ (step_in_sync pageId w ev Hs)) as (n2 & H2 & F2).
    exists (n1 ++ n2)%list. split; [|by apply Forall_app].
    unfold run in H2. by rewrite H2, H1, app_assoc.
Qed.

(** X8: telemetry is only sent by a click: a run of re-renders and
    hydration alone sends nothing, reports nothing, leaves the global object
    alone and leaves the flag 'not given'. *)
Theorem run_without_clicks pageId s evs :
  forallb (fun ev => negb (is_click ev)) evs = true ->
  let w := run host pageId evs (mount host pageId s) in
  sent (st w) = sent s
  ∧ uncaught w = []
  ∧ window (st w) = window s
  ∧ feedbackGiven (st w) = false.
Proof.
  intros Hev. cbn zeta.
  assert (H0 : sent (st (mount host pageId s)) = sent s
               ∧ uncaught (mount host pageId s) = []
               ∧ window (st (mount host pageId s)) = window s
               ∧ feedbackGiven (st (mount host pageId s)) = false).
  { unfold mount. by rewrite render_sent, render_uncaught, render_window, render_flag. }
  revert H0. generalize (mount host pageId s).
  induction evs as [|ev evs IH]; intros w Hw; [done|].
  cbn [forallb] in Hev. apply andb_prop in Hev as [Hc Hev].
  cbn [run fold_left]. apply (IH Hev).
  destruct Hw as (H1 & H2 & H3 & H4).
  destruct ev as [i| |]; [done| |]; cbn [step].
  - by rewrite render_sent, render_uncaught, render_window, render_flag.
  - by rewrite render_sent, render_uncaught, render_window, render_flag.
Qed.

(** What one event does to the flag and the log when the hook returns. *)
Lemma step_once pageId w ev :
  (∀ f a g, (host f a g).1 = None) ->
  in_sync host w ->
  ∃ new, sent (st (step host pageId w ev)) = (sent (st w) ++ new)%list
         ∧ (feedbackGiven (st w) = true ->
            new = [] ∧ feedbackGiven (st (step host pageId w ev)) = true)
         ∧ (new = []
            ∨ (List.length new = 1
               ∧ feedbackGiven (st (step host pageId w ev)) = true)).
Proof.
  intros Hret Hs. destruct ev as [i| |]; cbn [step].
  2,3: exists []; rewrite render_sent, render_flag, app_nil_r; by auto.
  destruct (browser (st w)) eqn:Hb.
  2:{ rewrite click_hidden by auto. exists []. rewrite app_nil_r. by auto. }
  destruct (feedbackGiven (st w)) eqn:Hg.
  { rewrite click_hidden by auto. exists []. rewrite app_nil_r. by auto. }
  rewrite click_shown by done.
  destruct (giveFeedback_cases (value_of i) (st w))
    as [(_ & ->)|[(_ & _ & ->)|[(l & _ & _ & _ & ->)
       |[(f & l & g & _ & _ & _ & ->)|(f & l & g & e & _ & _ & Hh & _)]]]];
    rewrite ?render_sent, ?render_flag;
    cbn [st sent set_window set_memoizedState log_call].
  1-3: exists []; rewrite app_nil_r; split; [done|]; split; [done | by left].
  - exists [(f, ga_args l (value_of i))]. split; [done|]. split; [done|].
    right. by split.
  - specialize (Hret f (ga_args l (value_of i)) (window (st w))).
    by rewrite Hh in Hret.
Qed.

(** When the hook never throws, a run in which every click is rendered
    before the next event sends at most one event. *)
Lemma fused_run_sends_at_most_once pageId s evs :
  (∀ f a g, (host f a g).1 = None) ->
  let w := run host pageId evs (mount host pageId s) in
  ∃ new, sent (st w) = (sent s ++ new)%list
         ∧ List.length new <= 1
         ∧ (new ≠ [] -> feedbackGiven (st w) = true).
Proof.
  intros Hret. cbn zeta.
  assert (Hgoal : ∀ w acc,
    in_sync host w ->
    sent (st w) = (sent s ++ acc)%list ->
    (acc = [] ∨ (List.length acc = 1 ∧ feedbackGiven (st w) = true)) ->
    ∃ new, sent (st (run host pageId evs w)) = (sent s ++ new)%list
           ∧ (new = [] ∨ (List.length new = 1
                          ∧ feedbackGiven (st (run host pageId evs w)) = true))).
  { induction evs as [|ev evs IH]; intros w acc Hs Hacc Hinv; cbn [run fold_left].
    - by exists acc.
    - destruct (step_once pageId w ev Hret Hs) as (n & Hn & Hgiven & Hone).
      destruct Hinv as [-> | [Hlen Hg]].
      + apply (IH _ n (step_in_sync pageId w ev Hs)); [|done].
        by rewrite Hn, Hacc, app_nil_r.
      + destruct (Hgiven Hg) as [-> Hg'].
        apply (IH _ acc (step_in_sync pageId w ev Hs)); [|by right].
        by rewrite Hn, Hacc, app_nil_r. }
  destruct (Hgoal (mount host pageId s) [] (mount_in_sync pageId s))
    as (new & Hnew & Hcases).
  { by rewrite mount_sent, app_nil_r. }
  { by left. }
  exists new. split; [done|].
  destruct Hcases as [-> | [Hlen Hg]]; split; cbn; try lia; done.
Qed.

(** ** Clicks and renders delivered separately *)

Lemma render_fixed pageId w :
  render host pageId (render host pageId w) = render host pageId w.
Proof.
  destruct (browser (st w)) eqn:Hb.
  - rewrite (render_in_browser host pageId w) by done.
    rewrite render_in_browser by (cbn [st]; by rewrite rendered_browser).
    cbn [st uncaught]. by rewrite rendered_flag, rendered_idem.
  - rewrite (render_on_server host pageId w) by done.
    by rewrite render_on_server.
Qed.

Lemma mount_fixed pageId s :
  render host pageId (mount host pageId s) = mount host pageId s.
Proof. apply render_fixed. Qed.

(** On a page that is up to date, a click with its render is [click]. *)
Lemma click_is_press_then_render pageId i w :
  render host pageId w = w ->
  click host pageId i w = render host pageId (press i w).
Proof.
  intros Hw. unfold click, press.
  destruct (onClick_of i (tree w)) as [h|]; [|done].
  by destruct (h (st w)) as [[[]|x] s'].
Qed.

Lemma paced_as_run pageId ds :
  ∀ w, render host pageId w = w ->
    (paced ds = true ->
     deliveries host pageId ds w = run host pageId (fused ds) w)
    ∧ (∀ i, paced (Press i :: ds) = true ->
            deliveries host pageId (Press i :: ds) w
            = run host pageId (fused (Press i :: ds)) w).
Proof.
  induction ds as [|d ds IH]; intros w Hw.
  - split; [done|]. by intros i.
  - split.
    + destruct d as [i| |].
      * intros Hp. by apply (proj2 (IH w Hw)).
      * cbn [paced]. intros Hp. cbn [deliveries run fused fold_left deliver step].
        rewrite Hw. by apply (proj1 (IH w Hw)).
      * cbn [paced]. intros Hp. cbn [deliveries run fused fold_left deliver step].
        by apply (proj1 (IH _ (render_fixed _ _))).
    + intros i. destruct d as [j| |]; cbn [paced]; [done| |done].
      intros Hp. cbn [deliveries run fused fold_left deliver step].
      rewrite (click_is_press_then_render pageId i w Hw).
      by apply (proj1 (IH _ (render_fixed _ _))).
Qed.

(** X3: when the hook never throws and every click is rendered before the
    next click or render is delivered, a mount sends at most one event
    however often the reader clicks, and an event that was sent has set the
    flag. *)
Theorem paced_clicks_send_at_most_once pageId s ds :
  (∀ f a g, (host f a g).1 = None) ->
  paced ds = true ->
  let w := deliveries host pageId ds (mount host pageId s) in
  ∃ new, sent (st w) = (sent s ++ new)%list
         ∧ List.length new <= 1
         ∧ (new ≠ [] -> feedbackGiven (st w) = true).
Proof.
  intros Hret Hp. cbn zeta.
  destruct (paced_as_run pageId ds _ (mount_fixed pageId s)) as [Hrun _].
  rewrite (Hrun Hp). by apply fused_run_sends_at_most_once.
Qed.

End HandlerOutcomes.

Lemma hydrate_after_server_mount_witness :
  browser server_page = false
  ∧ step quiet (VStr "goals") (mount quiet (VStr "goals") server_page) Hydrate
    = mount quiet (VStr "goals") (set_browser true server_page).
Proof.
  split; [reflexivity|].
  apply (hydrate_after_server_mount quiet (VStr "goals") server_page).
  reflexivity.
Defined.

Lemma paced_clicks_send_at_most_once_witness :
  (∀ f a g, (quiet f a g).1 = None)
  ∧ paced [Press IconThumbsDown; Commit; Press IconThumbsUp; Commit; Commit] = true
  ∧ ∃ new,
      sent (st (deliveries quiet (VStr "goals")
                  [Press IconThumbsDown; Commit; Press IconThumbsUp; Commit; Commit]
                  (mount quiet (VStr "goals") page_with_ga_and_label)))
      = (sent page_with_ga_and_label ++ new)%list
      ∧ List.length new <= 1.
Proof.
  split; [reflexivity|]. split; [reflexivity|].
  destruct (paced_clicks_send_at_most_once quiet (VStr "goals") page_with_ga_and_label
              [Press IconThumbsDown; Commit; Press IconThumbsUp; Commit; Commit]
              (fun _ _ _ => eq_refl) eq_refl)
    as (new & Hnew & Hlen & _).
  exists new. split; assumption.
Defined.

(** Without the render in between, a second click still reaches its control
    and sends a second event. *)
Example unpaced_clicks_send_twice :
  paced [Press IconThumbsDown; Press IconThumbsUp] = false
  ∧ sent (st (deliveries quiet (VStr "goals")
                [Press IconThumbsDown; Press IconThumbsUp; Commit]
                (mount quiet (VStr "goals") page_with_ga_and_label)))
    = [ ("ga", ga_args (VStr "intro") (VNum 0));
        ("ga", ga_args (VStr "intro") (VNum 1)) ].
Proof. split; [reflexivity|]. by vm_compute. Qed.

Lemma click_when_hook_throws_witness :
  browser page_with_ga_and_label = true
  ∧ feedbackGiven page_with_ga_and_label = false
  ∧ window page_with_ga_and_label !! "ga" = Some (VFun "ga")
  ∧ window page_with_ga_and_label !! "label" = Some (VStr "intro")
  ∧ failing "ga" (ga_args (VStr "intro") (value_of IconThumbsUp))
      (window page_with_ga_and_label)
    = (Some (Thrown (VStr "blocked")), window page_with_ga_and_label)
  ∧ feedbackGiven
      (st (click failing (VStr "goals") IconThumbsUp
             (render failing (VStr "goals") (Widget Null page_with_ga_and_label []))))
    = false
  ∧ sent (st (click failing (VStr "goals") IconThumbsDown
                (click failing (VStr "goals") IconThumbsUp
                   (render failing (VStr "goals")
                      (Widget Null page_with_ga_and_label [])))))
    = [ ("ga", ga_args (VStr "intro") (VNum 1));
        ("ga", ga_args (VStr "intro") (VNum 0)) ].
Proof.
  split; [reflexivity|]. split; [reflexivity|]. split; [reflexivity|].
  split; [reflexivity|]. split; [reflexivity|].
  destruct (click_when_hook_throws failing (VStr "goals") IconThumbsUp
              page_with_ga_and_label [] "ga" (VStr "intro")
              (Thrown (VStr "blocked")) (window page_with_ga_and_label)
              eq_refl eq_refl eq_refl eq_refl eq_refl)
    as (_ & _ & Hflag & _ & _ & Hagain).
  split; [exact Hflag|].
  exact (Hagain IconThumbsDown "ga" (VStr "intro")
           (Some (Thrown (VStr "blocked"))) (window page_with_ga_and_label)
           eq_refl eq_refl eq_refl).
Defined.

Lemma feedback_values_witness :
  onClick_of IconThumbsUp (tree (mount quiet (VStr "goals") page_with_ga_and_label))
  = Some (giveFeedback quiet setState (VNum 1))
  ∧ onClick_of IconThumbsDown (tree (mount quiet (VStr "goals") page_with_ga_and_label))
    = Some (giveFeedback quiet setState (VNum 0))
  ∧ ∃ c, sent (st (click quiet (VStr "goals") IconThumbsDown
                     (mount quiet (VStr "goals") page_with_ga_and_label)))
         = [c]
         ∧ get_prop "eventValue" (payload c) = VNum 0.
Proof.
  destruct (feedback_values quiet (VStr "goals") page_with_ga_and_label [])
    as (_ & _ & _ & Hwired & Hpass).
  destruct (Hwired eq_refl eq_refl) as [Hup Hdown].
  split; [exact Hup|]. split; [exact Hdown|].
  exact (Hpass IconThumbsDown "ga" (VStr "intro") None
           (window page_with_ga_and_label)
           eq_refl eq_refl eq_refl eq_refl eq_refl).
Defined.

Lemma click_when_ga_not_callable_witness :
  browser page_with_broken_ga = true
  ∧ feedbackGiven page_with_broken_ga = false
  ∧ window page_with_broken_ga !! "ga" = Some (VBool true)
  ∧ truthy (VBool true) = true
  ∧ (∀ f, VBool true ≠ VFun f)
  ∧ window page_with_broken_ga !! "label" = Some (VStr "intro")
  ∧ uncaught (click quiet (VStr "goals") IconThumbsDown
                (render quiet (VStr "goals") (Widget Null page_with_broken_ga [])))
    = [TypeError "not a function"].
Proof.
  split; [reflexivity|]. split; [reflexivity|]. split; [reflexivity|].
  split; [reflexivity|]. split; [discriminate|]. split; [reflexivity|].
  apply (click_when_ga_not_callable quiet (VStr "goals") IconThumbsDown
           page_with_broken_ga [] (VBool true) (VStr "intro"));
    try reflexivity. discriminate.
Defined.

Lemma run_without_clicks_witness :
  forallb (fun ev => negb (is_click ev)) [Rerender; Hydrate; Rerender] = true
  ∧ sent (st (run quiet (VStr "goals") [Rerender; Hydrate; Rerender]
                (mount quiet (VStr "goals") server_page)))
    = sent server_page.
Proof.
  split; [reflexivity|].
  apply (run_without_clicks quiet (VStr "goals") server_page
           [Rerender; Hydrate; Rerender]).
  reflexivity.
Defined.

(* ===================================================================== *)
(** * Properties of the crowdfund contract                                *)
(* ===================================================================== *)

Section CrowdfundProperties.

Import Crowdfund.

Context {Address env : Type} `{EqDecision Address} `{Sdk Address env}.

Variable overflow_checks : bool.

Local Open Scope Z_scope.

(** The state, from the three observations it is computed from. *)
Lemma get_state_cases (e : env) :
  (get_ledger_timestamp e < get_deadline e ∧ get_state e = Running)
  ∨ (get_deadline e <= get_ledger_timestamp e
     ∧ (get_recipient_claimed e = true ∨ target_reached e (get_token e) = true)
     ∧ get_state e = Success)
  ∨ (get_deadline e <= get_ledger_timestamp e
     ∧ get_recipient_claimed e = false
     ∧ target_reached e (get_token e) = false
     ∧ get_state e = Expired).
Proof.
  unfold get_state.
  destruct (Z.ltb_spec (get_ledger_timestamp e) (get_deadline e)) as [Hlt|Hge].
  - by left.
  - right. destruct (get_recipient_claimed e) eqn:Hc; [left; by auto|].
    destruct (target_reached e (get_token e)) eqn:Ht; [left; by auto|].
    right. by auto.
Qed.

(** X10: before the deadline every withdrawal panics with 'sale is still
    running', for the recipient and for donors alike and whatever has been
    pledged. *)
Theorem withdraw_before_deadline (e : env) (to : Address) :
  get_ledger_timestamp e < get_deadline e ->
  withdraw e to = Panicked "sale is still running".
Proof.
  intros Hlt. unfold withdraw.
  destruct (get_state_cases e) as [(_ & ->)|[(Hge & _)|(Hge & _)]]; [done|lia|lia].
Qed.

(** X11: a withdrawal that returns happened at or after the deadline with
    the funds not yet claimed.  Either the target was reached and it paid
    the recipient the contract's whole balance and then marked the funds as
    claimed, or the target was not reached and it zeroed the record of a
    donor, paid the donor the amount that was recorded and then emitted
    'pledged_amount_changed' with the balance left. *)
Theorem withdraw_returns_only_if (e e' : env) (to : Address) :
  withdraw e to = Returned e' ->
  get_deadline e <= get_ledger_timestamp e
  ∧ get_recipient_claimed e = false
  ∧ ((to = get_recipient e
      ∧ target_reached e (get_token e) = true
      ∧ ∃ e1, transfer e (get_recipient e) (get_balance e (get_token e)) = Some e1
              ∧ e' = set_recipient_claimed e1)
     ∨ (to ≠ get_recipient e
        ∧ target_reached e (get_token e) = false
        ∧ ∃ e1, transfer (set_user_deposited e to 0) to (get_user_deposited e to)
                = Some e1
                ∧ e' = events_pledged_amount_changed e1
                         (get_balance e1 (get_token e1)))).
Proof.
  unfold withdraw.
  destruct (get_state_cases e)
    as [(_ & ->)|[(Hge & Hs & ->)|(Hge & Hc & Ht & ->)]]; [done| |].
  - destruct (bool_decide_reflect (to = get_recipient e)) as [Hto|Hto];
      cbn [negb]; [|done].
    destruct (get_recipient_claimed e) eqn:Hc; cbn [negb]; [done|].
    destruct (transfer e (get_recipient e) (get_balance e (get_token e)))
      as [e1|] eqn:Htr; [|done].
    intros [= <-]. destruct Hs as [Hs|Hs]; [done|].
    split; [done|]. split; [done|]. left. split; [done|]. split; [done|].
    by exists e1.
  - destruct (bool_decide_reflect (to ≠ get_recipient e)) as [Hto|Hto];
      cbn [negb]; [|done].
    destruct (transfer (set_user_deposited e to 0) to (get_user_deposited e to))
      as [e1|] eqn:Htr; [|done].
    intros [= <-].
    split; [done|]. split; [done|]. right. split; [done|]. split; [done|].
    by exists e1.
Qed.

(** X12: once the recipient has claimed, no withdrawal returns any more:
    before the deadline it is 'still running', afterwards the recipient
    'has withdrawn funds already' and everyone else is told that only the
    recipient may withdraw. *)
Theorem withdraw_after_claim (e : env) (to : Address) :
  get_recipient_claimed e = true ->
  withdraw e to
  = Panicked
      (if get_ledger_timestamp e <? get_deadline e then
         "sale is still running"
       else if bool_decide (to = get_recipient e) then
         "sale was successful, recipient has withdrawn funds already"
       else "sale was successful, only the recipient may withdraw").
Proof.
  intros Hc. unfold withdraw.
  destruct (get_state_cases e)
    as [(Hlt & ->)|[(Hge & _ & ->)|(_ & Hc' & _)]]; [| |congruence].
  - by destruct (Z.ltb_spec (get_ledger_timestamp e) (get_deadline e)); [|lia].
  - destruct (Z.ltb_spec (get_ledger_timestamp e) (get_deadline e)); [lia|].
    destruct (bool_decide (to = get_recipient e)); cbn [negb]; [|done].
    by rewrite Hc.
Qed.

(** X13: a deposit that returns was authorised, of a positive amount, made
    before the deadline and by someone other than the recipient. *)
Theorem deposit_returns_only_if (e e' : env) (user : Address) (amount : Z) :
  deposit overflow_checks e user amount = Returned e' ->
  ∃ e1, require_auth e user = Some e1
        ∧ 0 < amount
        ∧ get_ledger_timestamp e1 < get_deadline e1
        ∧ user ≠ get_recipient e1.
Proof.
  unfold deposit. destruct (require_auth e user) as [e1|]; [|done].
  destruct (Z.ltb_spec 0 amount) as [Hpos|Hneg]; cbn [negb]; [|done].
  destruct (get_state_cases e1)
    as [(Hlt & ->)|[(_ & _ & ->)|(_ & _ & _ & ->)]]; cbn [State_eqb negb];
    [|done|done].
  destruct (bool_decide_reflect (user ≠ get_recipient e1)) as [Hne|Heq];
    cbn [negb]; [|done].
  intros _. by exists e1.
Qed.

(** X14: the refusals of an authorised deposit, in the order the checks are
    made: a non-positive amount first, then a sale that is past its
    deadline, then the recipient as depositor. *)
Theorem deposit_refusals (e e1 : env) (user : Address) (amount : Z) :
  require_auth e user = Some e1 ->
  (amount <= 0 ->
   deposit overflow_checks e user amount = Panicked "amount must be positive")
  ∧ (0 < amount -> get_deadline e1 <= get_ledger_timestamp e1 ->
     deposit overflow_checks e user amount = Panicked "sale is not running")
  ∧ (0 < amount -> get_ledger_timestamp e1 < get_deadline e1 ->
     user = get_recipient e1 ->
     deposit overflow_checks e user amount = Panicked "recipient may not deposit").
Proof.
  intros Hauth. unfold deposit. rewrite Hauth.
  destruct (Z.ltb_spec 0 amount) as [Hpos|Hneg]; cbn [negb].
  2:{ split; [done|]. split; intros; lia. }
  split; [intros; lia|].
  destruct (get_state_cases e1)
    as [(Hlt & ->)|[(Hge & _ & ->)|(Hge & _ & _ & ->)]]; cbn [State_eqb negb].
  - split; [intros; lia|]. intros _ _ Heq.
    by destruct (bool_decide_reflect (user ≠ get_recipient e1)).
  - split; [done|intros; lia].
  - split; [done|intros; lia].
Qed.

(** X15: [initialize] works once.  It panics with 'already initialized'
    when the recipient key is present, and on a storage where a key that was
    set is present, a second call after one that returned panics, whatever
    its arguments. *)
Theorem initialize_once (e e' : env) (r r' tok tok' : Address) (d d' t t' : Z) :
  (∀ (x : env) k v, storage_has (storage_set x k v) k = true) ->
  (∀ (x : env) k k' v, k ≠ k' ->
     storage_has (storage_set x k v) k' = storage_has x k') ->
  initialize e r d t tok = Returned e' ->
  storage_has e DataKey.Recipient = false
  ∧ initialize e' r' d' t' tok' = Panicked "already initialized".
Proof.
  intros Hset Hframe. unfold initialize.
  destruct (storage_has e DataKey.Recipient) eqn:Hhas; [done|].
  intros [= <-]. split; [done|]. cbv zeta.
  rewrite !Hframe by done. by rewrite Hset.
Qed.

(** X16: a deposit that returns has recorded the sum of the old record and
    the amount, moved the amount from the user to the contract, and emitted
    'pledged_amount_changed'; it emits 'target_reached' after it only when
    the target was not met before the deposit and is met after it. *)
Theorem deposit_target_event_only_on_crossing
    (e e' : env) (user : Address) (amount : Z) :
  deposit overflow_checks e user amount = Returned e' ->
  ∃ e1 sum e2,
    require_auth e user = Some e1
    ∧ i128_add overflow_checks (get_user_deposited e1 user) amount = Returned sum
    ∧ client_transfer (set_user_deposited e1 user sum) (get_token e1) user
        (current_contract_address (set_user_deposited e1 user sum)) amount
      = Some e2
    ∧ let b := get_balance e2 (get_token e1) in
      let e3 := events_pledged_amount_changed e2 b in
      (target_reached e1 (get_token e1) = true -> e' = e3)
      ∧ (target_reached e3 (get_token e1) = false -> e' = e3)
      ∧ (target_reached e1 (get_token e1) = false ->
         target_reached e3 (get_token e1) = true ->
         e' = events_target_reached e3 b (get_target_amount e3)).
Proof.
  unfold deposit. destruct (require_auth e user) as [e1|]; [|done].
  destruct (negb (0 <? amount)); [done|].
  destruct (negb (State_eqb (get_state e1) Running)); [done|].
  destruct (negb (bool_decide (user ≠ get_recipient e1))); [done|].
  destruct (i128_add overflow_checks (get_user_deposited e1 user) amount)
    as [sum| |] eqn:Hsum; [|done|done].
  destruct (client_transfer _ _ _ _ _) as [e2|] eqn:Htr; [|done].
  intros Hret. exists e1, sum, e2. split; [done|]. split; [done|].
  split; [exact Htr|]. cbn zeta.
  destruct (target_reached e1 (get_token e1));
    destruct (target_reached _ (get_token e1)); cbn [negb andb] in Hret;
    simplify_eq; by repeat split.
Qed.

End CrowdfundProperties.

(** ** The contract run on the reference environment *)

Section CrowdfundRuns.

Import Crowdfund Crowdfund.Ref.

Local Open Scope Z_scope.

Lemma withdraw_before_deadline_witness :
  get_ledger_timestamp setup < get_deadline setup
  ∧ withdraw setup "recipient" = Panicked "sale is still running".
Proof.
  split; [reflexivity|].
  apply (withdraw_before_deadline setup "recipient"). reflexivity.
Defined.

Lemma withdraw_returns_only_if_witness :
  withdraw (advance_ledger setup 11) "user1"
  = Returned (expect (withdraw (advance_ledger setup 11) "user1") setup)
  ∧ get_deadline (advance_ledger setup 11)
    <= get_ledger_timestamp (advance_ledger setup 11)
  ∧ ∃ e1, transfer (set_user_deposited (advance_ledger setup 11) "user1" 0)
            "user1" (get_user_deposited (advance_ledger setup 11) "user1")
          = Some e1.
Proof.
  split; [by vm_compute|].
  destruct (withdraw_returns_only_if (advance_ledger setup 11)
              (expect (withdraw (advance_ledger setup 11) "user1") setup) "user1")
    as (Hge & _ & [(Hto & _)|(_ & _ & e1 & Htr & _)]); [by vm_compute| |].
  - by vm_compute in Hto.
  - split; [exact Hge|]. by exists e1.
Defined.

Lemma withdraw_after_claim_witness :
  get_recipient_claimed paid_out = true
  ∧ withdraw paid_out "user1"
    = Panicked "sale was successful, only the recipient may withdraw".
Proof.
  split; [by vm_compute|].
  rewrite (withdraw_after_claim paid_out "user1"); by vm_compute.
Defined.

Lemma deposit_returns_only_if_witness :
  deposit true setup "user2" 5 = Returned funded
  ∧ ∃ e1, require_auth setup "user2" = Some e1
          ∧ 0 < 5
          ∧ get_ledger_timestamp e1 < get_deadline e1
          ∧ "user2" ≠ get_recipient e1.
Proof.
  split; [by vm_compute|].
  apply (deposit_returns_only_if true setup funded "user2" 5). by vm_compute.
Defined.

Lemma deposit_refusals_witness :
  require_auth setup "recipient" = Some setup
  ∧ deposit true setup "recipient" 0 = Panicked "amount must be positive".
Proof.
  split; [by vm_compute|].
  apply (deposit_refusals true setup setup "recipient" 0); [by vm_compute|lia].
Defined.

Lemma Ref_has_set (x : ledger) k v : storage_has (storage_set x k v) k = true.
Proof. cbn. unfold has, set. cbn. by destruct k. Qed.

Lemma Ref_has_set_other (x : ledger) k k' v :
  k ≠ k' -> storage_has (storage_set x k v) k' = storage_has x k'.
Proof. intros Hne. cbn. unfold has, set. cbn. by destruct k, k'. Qed.

Lemma initialize_once_witness :
  initialize genesis "recipient" 10 15 "token"
  = Returned (expect (initialize genesis "recipient" 10 15 "token") genesis)
  ∧ initialize (expect (initialize genesis "recipient" 10 15 "token") genesis)
      "intruder" 0 0 "token"
    = Panicked "already initialized".
Proof.
  split; [reflexivity|].
  apply (initialize_once genesis
           (expect (initialize genesis "recipient" 10 15 "token") genesis)
           "recipient" "intruder" "token" "token" 10 0 15 0
           Ref_has_set Ref_has_set_other).
  reflexivity.
Defined.

Lemma deposit_target_event_only_on_crossing_witness :
  deposit true funded "user2" 3
  = Returned (expect (deposit true funded "user2" 3) funded)
  ∧ ∃ e1 sum e2,
      require_auth funded "user2" = Some e1
      ∧ i128_add true (get_user_deposited e1 "user2") 3 = Returned sum
      ∧ client_transfer (set_user_deposited e1 "user2" sum) (get_token e1) "user2"
          (current_contract_address (set_user_deposited e1 "user2" sum)) 3
        = Some e2.
Proof.
  split; [by vm_compute|].
  destruct (deposit_target_event_only_on_crossing true funded
              (expect (deposit true funded "user2" 3) funded) "user2" 3)
    as (e1 & sum & e2 & H1 & H2 & H3 & _); [by vm_compute|].
  by exists e1, sum, e2.
Defined.

(** The tests printed on the page, run on the reference environment. *)

Example test_expired :
  let e := expect (withdraw (advance_ledger setup 11) "user1") setup in
  balance e "user1" = 10 ∧ balance e contract_id = 0.
Proof. by vm_compute. Qed.

Example sale_still_running :
  withdraw setup "recipient" = Panicked "sale is still running".
Proof. by vm_compute. Qed.

Example test_success :
  (balance funded "user1" = 0 ∧ balance funded "user2" = 3
   ∧ balance funded contract_id = 15)
  ∧ (balance paid_out "user1" = 0 ∧ balance paid_out "user2" = 3
     ∧ balance paid_out contract_id = 0 ∧ balance paid_out "recipient" = 15).
Proof. by vm_compute. Qed.

Example sale_not_running :
  deposit true (advance_ledger setup 10) "user1" 1 = Panicked "sale is not running".
Proof. by vm_compute. Qed.

Example sale_expired_recipient_not_allowed :
  withdraw (advance_ledger setup 10) "recipient"
  = Panicked "sale expired, the recipient may not withdraw".
Proof. by vm_compute. Qed.

Example sale_successful_only_recipient :
  withdraw (advance_ledger funded 10) "user1"
  = Panicked "sale was successful, only the recipient may withdraw".
Proof. by vm_compute. Qed.

Example sale_successful_non_recipient_still_denied_after_withdrawal :
  withdraw paid_out "user1"
  = Panicked "sale was successful, only the recipient may withdraw".
Proof. by vm_compute. Qed.

Example test_events :
  events (expect (deposit true funded "user2" 3) funded)
  = [ ("pledged_amount_changed", [10]);
      ("pledged_amount_changed", [15]);
      ("target_reached", [15; 15]);
      ("pledged_amount_changed", [18]) ].
Proof. by vm_compute. Qed.

Example sale_successful_recipient_withdraws_only_once :
  withdraw paid_out "recipient"
  = Panicked "sale was successful, recipient has withdrawn funds already".
Proof. by vm_compute. Qed.

End CrowdfundRuns.
